(** * RAG test server (External Retrieval Interface): a shallow embedding

    The Python modules of [rag-test/src] are embedded one Rocq module per
    source file: [config], [user_store], [models], [auth], [security],
    [database], [retrieval], [api] and [main].  A Python [str] is a [string]
    (its UTF-8 bytes; every character the code inspects is ASCII), an [int]
    is a [Z], a [dict] read by key is a [gmap], a [dict] or header list whose
    order matters is an association list.  Raising an exception is the
    [Raise] branch of [result]; the wall clock is an explicit argument. *)

From Stdlib Require Import ZArith Ascii String List Bool Lia.
From stdpp Require Import base strings gmap list pretty.

Local Open Scope Z_scope.
Local Open Scope string_scope.

(** ** Python runtime: exceptions, results, a few [str] methods *)

Module py.

(** [fastapi.HTTPException(status_code, detail, headers)]; [headers]
    defaults to [None]. *)
Record HTTPException := mkHTTPException {
  status_code : Z;
  detail : string;
  exc_headers : option (list (string * string))
}.

(** The exception classes the code raises or catches. *)
Inductive exn :=
| EHTTP (e : HTTPException)     (* fastapi.HTTPException *)
| EJWT (msg : string)           (* jose.JWTError and its subclasses *)
| EValue (msg : string)         (* ValueError *)
| EOther (msg : string).        (* any other Exception *)

(** The few Python values that handlers return or put in a JSON body. *)
Inductive value :=
| VNone
| VBool (b : bool)
| VInt (n : Z)
| VStr (s : string).

Inductive result (A : Type) :=
| Ok (a : A)
| Raise (e : exn).
Arguments Ok {A} a.
Arguments Raise {A} e.

Definition bind {A B} (m : result A) (k : A -> result B) : result B :=
  match m with
  | Ok a => k a
  | Raise e => Raise e
  end.

(** [str(exc)]: Starlette prints an HTTPException as its status code and
    detail, the other classes print their message. *)
Definition str_exn (e : exn) : string :=
  match e with
  | EHTTP h => pretty (status_code h) +:+ ": " +:+ detail h
  | EJWT msg | EValue msg | EOther msg => msg
  end.

(** Truth value of a [str] and of an [Optional[str]]: [None] and the empty
    string are false. *)
Definition truthy (s : string) : bool :=
  match s with
  | EmptyString => false
  | String _ _ => true
  end.

Definition truthy_opt (o : option string) : bool :=
  match o with
  | None => false
  | Some s => truthy s
  end.

(** [s.replace(old, new)] for a one-character [old]: every occurrence of
    the character is replaced, left to right. *)
Fixpoint replace (old : ascii) (new : string) (s : string) : string :=
  match s with
  | EmptyString => EmptyString
  | String c rest =>
      if Ascii.eqb c old then new +:+ replace old new rest
      else String c (replace old new rest)
  end.

(** [c in s] for a one-character [c]. *)
Fixpoint contains (c : ascii) (s : string) : bool :=
  match s with
  | EmptyString => false
  | String d rest => Ascii.eqb d c || contains c rest
  end.

(** [s.lower()] on ASCII letters. *)
Definition lower_char (c : ascii) : ascii :=
  let n := N_of_ascii c in
  if ((65 <=? n) && (n <=? 90))%N then ascii_of_N (n + 32) else c.

Fixpoint lower (s : string) : string :=
  match s with
  | EmptyString => EmptyString
  | String c rest => String (lower_char c) (lower rest)
  end.

(** [int(s)] for a [str]: surrounding white space is dropped, one sign may
    lead, then come decimal digits, single underscores allowed between
    two digits.  Anything else is a ValueError, here [None].  (ASCII only:
    the digits and spaces of other scripts are left out.) *)
Definition is_digit (c : ascii) : bool :=
  let n := N_of_ascii c in ((48 <=? n) && (n <=? 57))%N.

Definition digit_val (c : ascii) : Z := Z.of_N (N_of_ascii c) - 48.

Definition is_space (c : ascii) : bool :=
  let n := N_of_ascii c in
  ((9 <=? n) && (n <=? 13) || (28 <=? n) && (n <=? 32))%N.

Fixpoint lstrip (s : string) : string :=
  match s with
  | String c rest => if is_space c then lstrip rest else s
  | EmptyString => EmptyString
  end.

Fixpoint rstrip (s : string) : string :=
  match s with
  | EmptyString => EmptyString
  | String c rest =>
      match rstrip rest with
      | EmptyString => if is_space c then EmptyString else String c EmptyString
      | r => String c r
      end
  end.

Fixpoint digits (s : string) (acc : Z) (after_digit : bool) : option Z :=
  match s with
  | EmptyString => if after_digit then Some acc else None
  | String c rest =>
      if is_digit c then digits rest (10 * acc + digit_val c) true
      else if Ascii.eqb c "_" && after_digit then
        match rest with
        | String d _ => if is_digit d then digits rest acc false else None
        | EmptyString => None
        end
      else None
  end.

Definition int_ (s : string) : option Z :=
  match rstrip (lstrip s) with
  | String "+" rest => digits rest 0 false
  | String "-" rest => Z.opp <$> digits rest 0 false
  | t => digits t 0 false
  end.

(** [s.upper()] on ASCII letters. *)
Definition upper_char (c : ascii) : ascii :=
  let n := N_of_ascii c in
  if ((97 <=? n) && (n <=? 122))%N then ascii_of_N (n - 32) else c.

Fixpoint upper (s : string) : string :=
  match s with
  | EmptyString => EmptyString
  | String c rest => String (upper_char c) (upper rest)
  end.

(** [pattern in s] for strings: [pattern] occurs in [s] as a substring. *)
Fixpoint str_in (pattern s : string) : bool :=
  String.prefix pattern s
  || match s with
     | EmptyString => false
     | String _ rest => str_in pattern rest
     end.

End py.

Notation "x <- m ;; k" := (py.bind m (fun x => k))
  (at level 100, m at next level, right associativity).
Notation "m ;;; k" := (py.bind m (fun _ => k))
  (at level 100, right associativity).

(** ** config.py *)

Module config.

Definition SECRET_KEY : string := "your-secret-key-here".
Definition ALGORITHM : string := "HS256".
Definition ACCESS_TOKEN_EXPIRE_MINUTES : Z := 180.

(** [VALID_STATIC_TOKENS = {}]: subject name to pre-shared secret, in
    insertion order.  The shipped table is empty and is filled in per
    deployment, so [auth] and [security] take the table as an argument. *)
Definition VALID_STATIC_TOKENS : list (string * string) := [].

Definition MAX_RESULTS : Z := 3.

Inductive ContentType := CT_NONE | CT_UNKNOWN | TEXT | IMAGE | VIDEO | AUDIO | SPEECH.

Inductive AuthMethod := AM_NONE | KERBEROS | USERNAME_PASSWORD | TOKEN.

Inductive ProviderType := PT_NONE | ANY | SELF_HOSTED.

(** [ProviderType.SELF_HOSTED.value]. *)
Definition SELF_HOSTED_value : string := "SELF_HOSTED".

(** [SECURITY_REQUIREMENTS["allowedProviderType"]] as shipped. *)
Definition allowedProviderType : ProviderType := ANY.

End config.

(** ** user_store.py *)

Module user_store.

(** What [users.json] holds: a JSON object (shown after the loader's
    [str(k)], [str(v)] conversions), or anything else (text that is not
    JSON, or a JSON value that is not an object). *)
Inductive file_content :=
| JsonObject (d : gmap string string)
| NotAnObject.

(** The module's state: the [_users_cache] global, the file (absent when
    [None]) and whether the file can be written. *)
Record state := mkState {
  _users_cache : option (gmap string string);
  USERS_FILE : option file_content;
  writable : bool
}.

(** [_load_users]: the cached dict when there is one; otherwise the dict
    read from the file (empty when the file is missing or unusable), which
    becomes the cache. *)
Definition _load_users (st : state) : gmap string string * state :=
  match _users_cache st with
  | Some users => (users, st)
  | None =>
      let users :=
        match USERS_FILE st with
        | Some (JsonObject d) => d
        | Some NotAnObject => ∅
        | None => ∅
        end in
      (users, mkState (Some users) (USERS_FILE st) (writable st))
  end.

(** [_save_users]: [write_text] of the serialised dict; an unwritable file
    raises OSError. *)
Definition _save_users (users : gmap string string) (st : state)
  : py.result unit * state :=
  if writable st
  then (py.Ok tt, mkState (_users_cache st) (Some (JsonObject users)) true)
  else (py.Raise (py.EOther "OSError"), st).

(** [upsert_user]: [users] is the cache object itself, so the item
    assignment updates the cache before the file is written. *)
Definition upsert_user (username password : string) (st : state)
  : py.result unit * state :=
  let '(users, st1) := _load_users st in
  let users' := <[username := password]> users in
  let st2 := mkState (Some users') (USERS_FILE st1) (writable st1) in
  _save_users users' st2.

(** [get_password]: [users.get(username)]. *)
Definition get_password (username : string) (st : state)
  : option string * state :=
  let '(users, st1) := _load_users st in
  (users !! username, st1).

(** [list_users]: a copy of the loaded dict. *)
Definition list_users (st : state) : gmap string string * state :=
  _load_users st.

End user_store.

(** ** models.py *)

Module models.

(** A JSON Web Token as [jose.jwt.encode] builds it: the claims and the
    signature over them (the fixed HS256 header is left implicit);
    [Malformed] stands for any string that is not such a serialisation. *)
Inductive claim :=
| CStr (s : string)
| CInt (n : Z)
| CDatetime (microseconds : Z)
| CNull.

Inductive token :=
| Jws (claims : gmap string claim) (signature : string)
| Malformed (s : string).

Record AuthResponse := mkAuthResponse {
  success : bool;
  token_ : option token;
  message : option string
}.

Record TokenData := mkTokenData { username : option string }.

(** [RetrievalRequest]; the fields the handlers never read
    (latestUserPromptType, thread, retrievalProcessId, parameters) are
    left out. *)
Record RetrievalRequest := mkRetrievalRequest {
  latestUserPrompt : option string;
  maxMatches : Z
}.

Record Context := mkContext {
  name : option string;
  category : option string;
  path : option string;
  type : config.ContentType;
  matchedContent : option string;
  surroundingContent : list string;
  links : list string
}.

End models.

(** ** auth.py *)

Module auth.
Import models.

(** [datetime] values are microseconds since the epoch, [timedelta]
    values are microseconds (the resolution of both in Python). *)
Definition timedelta_minutes (m : Z) : Z := m * 60 * 1000000.

(** [calendar.timegm(d.utctimetuple())]: whole seconds, the microseconds
    dropped. *)
Definition timegm (d : Z) : Z := d / 1000000.

Definition credentials_exception : py.HTTPException :=
  py.mkHTTPException 401 "Could not validate credentials"
    (Some [("WWW-Authenticate", "Bearer")]).

Section with_keys.

(** The HS256 signature (HMAC-SHA256) of a claim set under a key: the
    hash itself is outside the repository and stays a parameter. *)
Variable hs256 : string -> gmap string claim -> string.

(** The table [config.VALID_STATIC_TOKENS] of the deployment. *)
Variable VALID_STATIC_TOKENS : list (string * string).

(** [jose.jwt.encode(claims, key, algorithm)]: a datetime under exp,
    iat or nbf becomes its integer date, then the claims are signed. *)
Definition to_intdate (c : claim) : claim :=
  match c with
  | CDatetime d => CInt (timegm d)
  | _ => c
  end.

Definition jwt_encode (claims : gmap string claim) (key : string) : token :=
  let claims' :=
    alter to_intdate "nbf" (alter to_intdate "iat" (alter to_intdate "exp" claims)) in
  Jws claims' (hs256 key claims').

(** [jose.jwt.decode(token, key, algorithms)] at clock reading [now]:
    the signature is recomputed and compared, then exp is checked
    against the clock in whole seconds ([exp < now] is expired) and sub
    must be a string when present.  The checks of the other registered
    claims (iat, nbf, aud, iss, jti, at_hash) are not modelled: a token
    of [create_access_token] carries none of them. *)
Definition validate_exp (claims : gmap string claim) (now : Z) : py.result unit :=
  match claims !! "exp" with
  | None => py.Ok tt
  | Some c =>
      let exp :=
        match c with
        | CInt n => py.Ok n
        | CStr s =>
            match py.int_ s with
            | Some n => py.Ok n
            | None => py.Raise (py.EJWT "Expiration Time claim (exp) must be an integer.")
            end
        | CDatetime _ | CNull => py.Raise (py.EOther "TypeError")
        end in
      exp <- exp ;;
      if (exp <? timegm now)%Z
      then py.Raise (py.EJWT "Signature has expired.")
      else py.Ok tt
  end.

Definition validate_sub (claims : gmap string claim) : py.result unit :=
  match claims !! "sub" with
  | None | Some (CStr _) => py.Ok tt
  | Some _ => py.Raise (py.EJWT "Subject must be a string.")
  end.

Definition jwt_decode (t : token) (key : string) (now : Z)
  : py.result (gmap string claim) :=
  match t with
  | Malformed _ => py.Raise (py.EJWT "Not enough segments")
  | Jws claims signature =>
      if String.eqb signature (hs256 key claims) then
        validate_exp claims now ;;;
        validate_sub claims ;;;
        py.Ok claims
      else py.Raise (py.EJWT "Signature verification failed.")
  end.

(** [create_access_token(data, expires_delta)] at clock reading [now].
    [if expires_delta:] is false for [None] and for a zero timedelta. *)
Definition create_access_token (now : Z) (data : gmap string claim)
    (expires_delta : option Z) : token :=
  let to_encode := data in
  let expire :=
    match expires_delta with
    | Some d =>
        if (d =? 0)%Z
        then now + timedelta_minutes config.ACCESS_TOKEN_EXPIRE_MINUTES
        else now + d
    | None => now + timedelta_minutes config.ACCESS_TOKEN_EXPIRE_MINUTES
    end in
  let to_encode := <["exp" := CDatetime expire]> to_encode in
  jwt_encode to_encode config.SECRET_KEY.

(** [verify_token(token)] at clock reading [now]: a JWTError becomes the
    credentials exception, a payload without sub raises it too. *)
Definition verify_token (now : Z) (t : token) : py.result TokenData :=
  match jwt_decode t config.SECRET_KEY now with
  | py.Ok payload =>
      match payload !! "sub" with
      | None | Some CNull => py.Raise (py.EHTTP credentials_exception)
      | Some (CStr u) => py.Ok (mkTokenData (Some u))
      | Some _ => py.Raise (py.EOther "ValidationError")
      end
  | py.Raise (py.EJWT _) => py.Raise (py.EHTTP credentials_exception)
  | py.Raise e => py.Raise e
  end.

(** [get_current_user]: [verify_token] never returns [None], so the
    dependency is [verify_token]. *)
Definition get_current_user (now : Z) (t : token) : py.result TokenData :=
  verify_token now t.

(** [authenticate_user(token)]: the first entry of the table whose
    secret equals the presented one names the subject. *)
Fixpoint authenticate_user_loop (now : Z) (items : list (string * string))
    (tok : string) : AuthResponse :=
  match items with
  | [] => mkAuthResponse false None (Some "Invalid token")
  | (username, valid_token) :: rest =>
      if String.eqb tok valid_token then
        let access_token_expires :=
          timedelta_minutes config.ACCESS_TOKEN_EXPIRE_MINUTES in
        let access_token :=
          create_access_token now {[ "sub" := CStr username ]}
            (Some access_token_expires) in
        mkAuthResponse true (Some access_token) (Some "Authentication successful")
      else authenticate_user_loop now rest tok
  end.

Definition authenticate_user (now : Z) (tok : string) : AuthResponse :=
  authenticate_user_loop now VALID_STATIC_TOKENS tok.

(** [is_static_token(token)]: [token in VALID_STATIC_TOKENS.values()]. *)
Definition is_static_token (tok : string) : bool :=
  existsb (String.eqb tok) (map snd VALID_STATIC_TOKENS).

(** [authenticate_user_password(user, password)] against the user
    store. *)
Definition authenticate_user_password (now : Z) (user password : string)
    (st : user_store.state) : AuthResponse * user_store.state :=
  let '(stored_pw, st') := user_store.get_password user st in
  match stored_pw with
  | Some pw =>
      if String.eqb pw password then
        let expires := timedelta_minutes config.ACCESS_TOKEN_EXPIRE_MINUTES in
        let access_token :=
          create_access_token now {[ "sub" := CStr user ]} (Some expires) in
        (mkAuthResponse true (Some access_token) (Some "Authentication successful"), st')
      else
        (mkAuthResponse false None (Some "Invalid username or password"), st')
  | None =>
      (mkAuthResponse false None (Some "Invalid username or password"), st')
  end.


End with_keys.

End auth.

(** ** security.py *)

Module security.

(** A [fastapi.Request] as the gateway reads it: method, URL path and the
    header list, whose names the server delivers in lower case. *)
Record Request := mkRequest {
  method : string;
  url_path : string;
  headers : list (string * string)
}.

(** [headers.get(key)]: the first header whose name is [key.lower()]. *)
Fixpoint headers_get (key : string) (hs : list (string * string)) : option string :=
  match hs with
  | [] => None
  | (k, v) :: rest =>
      if String.eqb k (py.lower key) then Some v else headers_get key rest
  end.

(** [_validate_rate_limit]: a placeholder, [pass]. *)
Definition _validate_rate_limit (request : Request) : py.result unit :=
  py.Ok tt.

(** [_validate_request_size]: only a non-empty content-length header is
    looked at; [int] of it raises ValueError when it is not a number. *)
Definition _validate_request_size (request : Request) : py.result unit :=
  match headers_get "content-length" (headers request) with
  | Some cl =>
      if py.truthy cl then
        match py.int_ cl with
        | Some content_length =>
            if (content_length >? 10000000)%Z
            then py.Raise (py.EHTTP (py.mkHTTPException 413 "Request too large" None))
            else py.Ok tt
        | None => py.Raise (py.EValue "invalid literal for int() with base 10")
        end
      else py.Ok tt
  | None => py.Ok tt
  end.

Section with_static_tokens.

Variable VALID_STATIC_TOKENS : list (string * string).

(** [SecurityManager.validate_request_security(request)]. *)
Definition validate_request_security (request : Request) : py.result unit :=
  match headers_get "token" (headers request) with
  | None =>
      py.Raise (py.EHTTP (py.mkHTTPException 401 "No token provided"
                            (Some [("WWW-Authenticate", "Bearer")])))
  | Some tok =>
      if auth.is_static_token VALID_STATIC_TOKENS tok then
        py.Raise (py.EHTTP (py.mkHTTPException 401 "Invalid token type"
                              (Some [("WWW-Authenticate", "Bearer")])))
      else
        _validate_rate_limit request ;;;
        _validate_request_size request
  end.

End with_static_tokens.

(** The denylist of [sanitize_input]: the characters
    less-than, greater-than, both braces, both parentheses, semicolon,
    ampersand, vertical bar, single quote and double quote (code 34). *)
Definition dangerous_chars : list ascii :=
  [ "<"; ">"; "{"; "}"; "("; ")"; ";"; "&"; "|"; "'"; "034" ]%char.

(** [sanitize_input]: one [replace(char, empty)] per denylist character,
    in order. *)
Definition sanitize_input (input_text : string) : string :=
  fold_left (fun sanitized char => py.replace char EmptyString sanitized)
            dangerous_chars input_text.

(** [get_security_headers()], in the order of the dict literal. *)
Definition get_security_headers : list (string * string) :=
  [ ("X-Content-Type-Options", "nosniff");
    ("X-Frame-Options", "DENY");
    ("X-XSS-Protection", "1; mode=block");
    ("Strict-Transport-Security", "max-age=31536000; includeSubDomains");
    ("Content-Security-Policy",
      "default-src 'self'; " +:+
      "img-src 'self' data:; " +:+
      "script-src 'self' 'unsafe-inline' 'unsafe-eval' https://unpkg.com; " +:+
      "style-src 'self' 'unsafe-inline' https://unpkg.com; " +:+
      "font-src 'self' data:;");
    ("Referrer-Policy", "strict-origin-when-cross-origin") ].

(** [validate_provider_type(provider_type)], for the allowed type that
    [SECURITY_REQUIREMENTS] holds. *)
Definition validate_provider_type (allowed_type : config.ProviderType)
    (provider_type : option string) : bool :=
  match allowed_type with
  | config.ANY => true
  | config.PT_NONE => false
  | config.SELF_HOSTED =>
      match provider_type with
      | None => false
      | Some p => String.eqb (py.upper p) config.SELF_HOSTED_value
      end
  end.

(** [validate_path(path)]: no listed pattern occurs in the path.  The
    patterns are dot-dot-slash, dot-dot-backslash, the percent-encoded
    dot-dot-slash in lower case, dot-dot and the tilde. *)
Definition dangerous_patterns : list string :=
  [ "../"; "..\"; "%2e%2e%2f"; ".."; "~" ].

Definition validate_path (path : string) : bool :=
  negb (existsb (fun pattern => py.str_in pattern path) dangerous_patterns).

End security.

(** ** database.py *)

Module database.

(** A langchain [Document]. *)
Record Document := mkDocument {
  page_content : string;
  metadata : gmap string string
}.

(** The Chroma collection behind a [VectorStoreManager]: the stored
    records with their ids, in insertion order, and whether the
    persistence layer answers (when it does not, every call on the
    collection raises). *)
Record VectorStoreManager := mkVectorStoreManager {
  collection : list (string * Document);
  available : bool
}.

Definition unavailable : py.exn := py.EOther "vector store unavailable".

Section with_distance.

(** The distance between the embedding of a query and the embedding of a
    stored text, as an order-preserving integer: the embedding model and
    its floating-point metric are outside the repository. *)
Variable distance : string -> string -> Z.

(** Nearest first, earlier insertion first among equals. *)
Fixpoint insert_by (query : string) (d : Document) (l : list Document) : list Document :=
  match l with
  | [] => [d]
  | x :: rest =>
      if (distance query (page_content d) <=? distance query (page_content x))%Z
      then d :: l
      else x :: insert_by query d rest
  end.

Definition nearest_first (query : string) (l : list Document) : list Document :=
  foldr (insert_by query) [] l.

(** [similarity_search(query, k)]: the [k] nearest stored documents. *)
Definition similarity_search (vs : VectorStoreManager) (query : string) (k : Z)
  : py.result (list Document) :=
  if available vs
  then py.Ok (take (Z.to_nat k) (nearest_first query (map snd (collection vs))))
  else py.Raise unavailable.

End with_distance.




End database.

(** ** retrieval.py *)

Module retrieval.
Import models database.

Section with_distance.

Variable distance : string -> string -> Z.

Definition to_context (doc : Document) : Context :=
  mkContext
    (Some (default "Unknown" (metadata doc !! "source")))
    (Some "Research Paper")
    (metadata doc !! "source")
    config.TEXT
    (Some (page_content doc))
    []
    [].

(** [process_retrieval_request(request)]; a prompt that is [None] makes
    the embedding call raise. *)
Definition process_retrieval_request (vs : VectorStoreManager)
    (request : RetrievalRequest) : py.result (list Context) :=
  match latestUserPrompt request with
  | Some prompt =>
      docs <- similarity_search distance vs prompt
                (if (maxMatches request >? 0)%Z then maxMatches request else 3) ;;
      py.Ok (map to_context docs)
  | None => py.Raise (py.EOther "AttributeError")
  end.

End with_distance.

End retrieval.

(** ** api.py *)

Module api.
Import models.

Section with_parameters.

Variable hs256 : string -> gmap string claim -> string.
Variable VALID_STATIC_TOKENS : list (string * string).
Variable distance : string -> string -> Z.

(** [POST /auth]: [token_cred] is the bearer credential of the
    Authorization header when there is one. *)
Definition authenticate (now : Z) (authMethod : config.AuthMethod)
    (token_cred : option string) (username password : option string)
    (st : user_store.state) : py.result AuthResponse * user_store.state :=
  match authMethod with
  | config.TOKEN =>
      match token_cred with
      | Some credentials =>
          if py.truthy credentials
          then (py.Ok (auth.authenticate_user hs256 VALID_STATIC_TOKENS now credentials), st)
          else (py.Raise (py.EHTTP (py.mkHTTPException 401 "No token provided"
                                      (Some [("WWW-Authenticate", "Bearer")]))), st)
      | None =>
          (py.Raise (py.EHTTP (py.mkHTTPException 401 "No token provided"
                                 (Some [("WWW-Authenticate", "Bearer")]))), st)
      end
  | config.USERNAME_PASSWORD =>
      match username, password with
      | Some u, Some p =>
          if py.truthy u && py.truthy p then
            let '(r, st') := auth.authenticate_user_password hs256 now u p st in
            (py.Ok r, st')
          else
            (py.Raise (py.EHTTP (py.mkHTTPException 400
               "Header 'username' and 'password' required." None)), st)
      | _, _ =>
          (py.Raise (py.EHTTP (py.mkHTTPException 400
             "Header 'username' and 'password' required." None)), st)
      end
  | _ =>
      (py.Raise (py.EHTTP (py.mkHTTPException 400
         "Unsupported authentication method" None)), st)
  end.

(** [POST /retrieval], the body of the handler (the [get_current_user]
    dependency has been resolved by the framework before it runs). *)
Definition retrieve (vs : database.VectorStoreManager)
    (request : RetrievalRequest) : py.result (list Context) :=
  if negb (py.truthy_opt (latestUserPrompt request)) then
    py.Raise (py.EHTTP (py.mkHTTPException 400 "User prompt is required" None))
  else
    match latestUserPrompt request with
    | Some prompt =>
        let sanitized_prompt := security.sanitize_input prompt in
        let request :=
          mkRetrievalRequest (Some sanitized_prompt) (maxMatches request) in
        match retrieval.process_retrieval_request distance vs request with
        | py.Ok contexts => py.Ok contexts
        | py.Raise e =>
            py.Raise (py.EHTTP (py.mkHTTPException 500
              ("Retrieval process failed: " +:+ py.str_exn e) None))
        end
    | None => py.Raise (py.EOther "AttributeError")
    end.

End with_parameters.

(** [POST /admin/user]. *)
Definition create_user (username password : string) (st : user_store.state)
  : py.result (list (string * py.value)) * user_store.state :=
  let '(r, st') := user_store.upsert_user username password st in
  (_ <- r ;; py.Ok [("success", py.VBool true); ("username", py.VStr username)], st').


End api.

(** ** main.py *)

Module main.
Import security.

Inductive body :=
| Json (fields : list (string * py.value))
| Raw (s : string).

(** A response: status, body and the header list (names in lower case, as
    Starlette keeps them). *)
Record Response := mkResponse {
  status : Z;
  content : body;
  resp_headers : list (string * string)
}.

(** [JSONResponse(status_code, content, headers)]: the given headers with
    their names lowered, then the content type (the content-length header,
    which depends on the rendered body, is left out). *)
Definition JSONResponse (status_code : Z) (fields : list (string * py.value))
    (hs : list (string * string)) : Response :=
  mkResponse status_code (Json fields)
    (map (fun kv => (py.lower (fst kv), snd kv)) hs
     ++ [("content-type", "application/json")]).

(** [response.headers[name] = value]: the first header of that name is
    overwritten and later ones of the same name are dropped; a new name is
    appended. *)
Fixpoint set_raw (k v : string) (l : list (string * string)) : list (string * string) :=
  match l with
  | [] => [(k, v)]
  | (k', v') :: rest =>
      if String.eqb k' k
      then (k, v) :: filter (fun kv => negb (String.eqb (fst kv) k)) rest
      else (k', v') :: set_raw k v rest
  end.

Definition set_header (r : Response) (name value : string) : Response :=
  mkResponse (status r) (content r) (set_raw (py.lower name) value (resp_headers r)).

(** [response.headers.get(name)]. *)
Definition get_header (r : Response) (name : string) : option string :=
  headers_get name (resp_headers r).

(** [@app.exception_handler(HTTPException)]. *)
Definition http_exception_handler (request : Request) (exc : py.HTTPException)
  : Response :=
  JSONResponse (py.status_code exc) [("detail", py.VStr (py.detail exc))]
    (default [] (py.exc_headers exc)).

(** [@app.exception_handler(Exception)]. *)
Definition general_exception_handler (request : Request) (exc : py.exn)
  : Response :=
  JSONResponse 500
    [("detail", py.VStr ("Internal server error: " +:+ py.str_exn exc))] [].

Definition exempt_paths : list string :=
  [ "/panda"; "/redoc"; "/openapi.json"; "/docs"; "/docs/oauth2-redirect";
    "/health"; "/" ].

Section with_static_tokens.

Variable VALID_STATIC_TOKENS : list (string * string).

(** The [validate_request_security] middleware. *)
Definition validate_request_security (request : Request)
    (call_next : Request -> py.result Response) : py.result Response :=
  if String.eqb (method request) "OPTIONS" then call_next request
  else
    let path := url_path request in
    if String.prefix "/auth" path then call_next request
    else if String.prefix "/admin" path then call_next request
    else if existsb (String.eqb (url_path request)) exempt_paths
    then call_next request
    else
      security.validate_request_security VALID_STATIC_TOKENS request ;;;
      call_next request.

(** The [add_security_headers] middleware. *)
Definition add_security_headers (request : Request)
    (call_next : Request -> py.result Response) : py.result Response :=
  response <- call_next request ;;
  py.Ok (fold_left (fun r h => set_header r (fst h) (snd h))
                   get_security_headers response).

(** How FastAPI stacks what main.py registers.  Around the router sits
    the exception middleware, which turns an HTTPException of a route
    into a response with the registered handler; around it the http
    middlewares, the one registered last outermost; around everything
    the server-error middleware, which answers any exception that got
    that far with the handler registered for [Exception].  (The CORS and
    GZip middlewares sit between the router and the two http
    middlewares and are left out.) *)
Definition exception_middleware (router : Request -> py.result Response)
    (request : Request) : py.result Response :=
  match router request with
  | py.Raise (py.EHTTP exc) => py.Ok (http_exception_handler request exc)
  | r => r
  end.

Definition server_error_middleware (inner : Request -> py.result Response)
    (request : Request) : Response :=
  match inner request with
  | py.Ok response => response
  | py.Raise exc => general_exception_handler request exc
  end.

Definition app (router : Request -> py.result Response) (request : Request)
  : Response :=
  server_error_middleware
    (fun request =>
       add_security_headers request
         (fun request =>
            validate_request_security request (exception_middleware router)))
    request.

End with_static_tokens.

(** [startup_event]: the configuration check at start-up, for the allowed
    provider type of the configuration. *)
Definition startup_event (allowed_type : config.ProviderType) : py.result unit :=
  if negb (security.validate_provider_type allowed_type None)
  then py.Raise (py.EOther "Invalid provider type configuration")
  else py.Ok tt.

End main.

(** ** Predicates and sample data used in the statements *)

Module spec.
Import models.

(** No denylist character occurs in [s]. *)
Definition is_clean (s : string) : bool :=
  forallb (fun c => negb (py.contains c s)) security.dangerous_chars.

(** Every character of [s] is on the denylist. *)
Fixpoint all_dangerous (s : string) : bool :=
  match s with
  | EmptyString => true
  | String c rest =>
      existsb (Ascii.eqb c) security.dangerous_chars && all_dangerous rest
  end.

(** The requests the security middleware of main.py lets through
    unchecked: preflight OPTIONS, the /auth and /admin prefixes and the
    fixed documentation and health paths. *)
Definition is_exempt (request : security.Request) : bool :=
  String.eqb (security.method request) "OPTIONS"
  || String.prefix "/auth" (security.url_path request)
  || String.prefix "/admin" (security.url_path request)
  || existsb (String.eqb (security.url_path request)) main.exempt_paths.

(** The expiry instant [create_access_token] computes. *)
Definition expiry (now : Z) (expires_delta : option Z) : Z :=
  match expires_delta with
  | Some d =>
      if (d =? 0)%Z
      then now + auth.timedelta_minutes config.ACCESS_TOKEN_EXPIRE_MINUTES
      else now + d
  | None => now + auth.timedelta_minutes config.ACCESS_TOKEN_EXPIRE_MINUTES
  end.



(** The outcome is an HTTPException with status 400. *)
Definition raises_400 {A} (r : py.result A) : bool :=
  match r with
  | py.Raise (py.EHTTP e) => (py.status_code e =? 400)%Z
  | _ => false
  end.

(** The failure results of the two authentication variants. *)
Definition invalid_token : AuthResponse :=
  mkAuthResponse false None (Some "Invalid token").

Definition invalid_username_or_password : AuthResponse :=
  mkAuthResponse false None (Some "Invalid username or password").

(** Sample instances of the parameters, for the worked examples: a
    signature that is the key followed by the number of claims, a distance
    that is the difference of lengths, a two-entry secret table, a store
    of two documents and a user store holding one user. *)
Definition sample_hs256 (key : string) (claims : gmap string claim) : string :=
  key +:+ "/" +:+ pretty (Z.of_nat (size claims)).

Definition sample_distance (query text : string) : Z :=
  Z.abs (Z.of_nat (String.length query) - Z.of_nat (String.length text)).

Definition sample_static_tokens : list (string * string) :=
  [ ("alice", "alice-secret"); ("bob", "bob-secret") ].

Definition sample_store : database.VectorStoreManager :=
  database.mkVectorStoreManager
    [ ("id-1", database.mkDocument "first page" {[ "source" := "a.pdf" ]});
      ("id-2", database.mkDocument "second" ∅) ]
    true.

Definition sample_users : user_store.state :=
  user_store.mkState None
    (Some (user_store.JsonObject {[ "carol" := "pw-carol" ]})) true.

Definition sample_response : main.Response :=
  main.JSONResponse 200 [("status", py.VStr "healthy")] [].

(** How many headers of a raw header list carry the name [k]. *)
Definition header_count (k : string) (l : list (string * string)) : nat :=
  length (filter (fun kv => String.eqb (fst kv) k) l).

(** The request passes the gateway: it is exempt, or the security check
    returns. *)
Definition passes_gateway (tokens : list (string * string))
    (request : security.Request) : bool :=
  is_exempt request
  || match security.validate_request_security tokens request with
     | py.Ok _ => true
     | py.Raise _ => false
     end.

End spec.

(** * Theorems *)

(** ** Sanitization *)

Section replace_facts.

Lemma contains_replace_same c s :
  py.contains c (py.replace c EmptyString s) = false.
Proof.
  induction s as [|d s IH]; simpl; [done|].
  destruct (Ascii.eqb d c) eqn:E; simpl; [done|].
  by rewrite E, IH.
Qed.

Lemma contains_replace_other c d s :
  py.contains c s = false ->
  py.contains c (py.replace d EmptyString s) = false.
Proof.
  induction s as [|x s IH]; simpl; [done|].
  intros [Hx Hs]%orb_false_iff.
  destruct (Ascii.eqb x d); simpl; [by apply IH|].
  by rewrite Hx, IH.
Qed.

Lemma replace_absent c s :
  py.contains c s = false -> py.replace c EmptyString s = s.
Proof.
  induction s as [|x s IH]; simpl; [done|].
  intros [Hx Hs]%orb_false_iff.
  by rewrite Hx, IH.
Qed.

(** Once a character is absent, further removals keep it absent. *)
Lemma contains_fold_replace c l s :
  py.contains c s = false ->
  py.contains c
    (fold_left (fun acc ch => py.replace ch EmptyString acc) l s) = false.
Proof.
  revert s. induction l as [|d l IH]; intros s Hs; simpl; [done|].
  apply IH. by apply contains_replace_other.
Qed.

Lemma fold_replace_removes c l s :
  In c l ->
  py.contains c
    (fold_left (fun acc ch => py.replace ch EmptyString acc) l s) = false.
Proof.
  revert s. induction l as [|d l IH]; intros s Hin; simpl; [destruct Hin|].
  destruct Hin as [->|Hin].
  - apply contains_fold_replace, contains_replace_same.
  - by apply IH.
Qed.

Lemma fold_replace_clean l s :
  forallb (fun c => negb (py.contains c s)) l = true ->
  fold_left (fun acc ch => py.replace ch EmptyString acc) l s = s.
Proof.
  induction l as [|d l IH]; simpl; [done|].
  intros [Hd Hl]%andb_true_iff. apply negb_true_iff in Hd.
  rewrite (replace_absent _ _ Hd). by apply IH.
Qed.

(** Removing the characters of [l] from a string made of characters of
    [l] leaves nothing. *)
Lemma fold_replace_empty l :
  fold_left (fun acc ch => py.replace ch EmptyString acc) l EmptyString
  = EmptyString.
Proof. induction l as [|d l IH]; simpl; done. Qed.

Lemma fold_replace_cons l c s :
  fold_left (fun acc ch => py.replace ch EmptyString acc) l (String c s)
  = if existsb (Ascii.eqb c) l
    then fold_left (fun acc ch => py.replace ch EmptyString acc) l s
    else String c (fold_left (fun acc ch => py.replace ch EmptyString acc) l s).
Proof.
  revert c s. induction l as [|d l IH]; intros c s; simpl; [done|].
  destruct (Ascii.eqb c d) eqn:E; simpl.
  - done.
  - by rewrite IH.
Qed.

End replace_facts.

Lemma sanitize_input_is_clean s :
  spec.is_clean (security.sanitize_input s) = true.
Proof.
  unfold spec.is_clean. apply forallb_forall. intros c Hc.
  apply negb_true_iff. by apply fold_replace_removes.
Qed.

Lemma sanitize_input_clean_noop s :
  spec.is_clean s = true -> security.sanitize_input s = s.
Proof. apply fold_replace_clean. Qed.

Lemma fold_replace_all_listed l s :
  (fix all (s : string) : bool :=
     match s with
     | EmptyString => true
     | String c rest => existsb (Ascii.eqb c) l && all rest
     end) s = true ->
  fold_left (fun acc ch => py.replace ch EmptyString acc) l s = EmptyString.
Proof.
  induction s as [|c s IH]; intros H.
  - apply fold_replace_empty.
  - apply andb_true_iff in H as [Hc Hs].
    rewrite fold_replace_cons, Hc. by apply IH.
Qed.

Lemma sanitize_input_all_dangerous s :
  spec.all_dangerous s = true -> security.sanitize_input s = EmptyString.
Proof. apply fold_replace_all_listed. Qed.

(** C1. For every input string [s], no character of the denylist (the
    eleven characters of [dangerous_chars]) occurs in [sanitize_input s];
    [sanitize_input] is idempotent; and a string that is already clean is
    returned unchanged. *)
Theorem C1_sanitize_input_clean_idempotent (s : string) :
  Forall (fun c => py.contains c (security.sanitize_input s) = false)
         security.dangerous_chars
  /\ security.sanitize_input (security.sanitize_input s)
     = security.sanitize_input s
  /\ (spec.is_clean s = true -> security.sanitize_input s = s).
Proof.
  split; [|split].
  - apply Forall_forall. intros c Hc. apply fold_replace_removes.
    by apply list_elem_of_In.
  - apply sanitize_input_clean_noop, sanitize_input_is_clean.
  - apply sanitize_input_clean_noop.
Qed.

(** A worked instance of C1: a mixed string, and a clean one left as it is. *)
Lemma C1_sanitize_input_witness :
  security.sanitize_input "a<b>{c}" = "abc"
  /\ security.sanitize_input (security.sanitize_input "a<b>{c}")
     = security.sanitize_input "a<b>{c}"
  /\ security.sanitize_input "plain text" = "plain text".
Proof.
  destruct (C1_sanitize_input_clean_idempotent "a<b>{c}") as (_ & Hidem & _).
  destruct (C1_sanitize_input_clean_idempotent "plain text") as (_ & _ & Hclean).
  split; [reflexivity|]. split; [exact Hidem|].
  apply Hclean. reflexivity.
Defined.

(** ** Token lifecycle *)

Section token_facts.
Import models.

Variable hs256 : string -> gmap string claim -> string.

(** The token issued for a subject: its claims are the subject and the
    expiry in whole seconds, signed with the server's key. *)
Lemma create_access_token_shape now s delta :
  exists claims,
    auth.create_access_token hs256 now {[ "sub" := CStr s ]} delta
    = Jws claims (hs256 config.SECRET_KEY claims)
    /\ claims !! "exp" = Some (CInt (auth.timegm (spec.expiry now delta)))
    /\ claims !! "sub" = Some (CStr s).
Proof.
  unfold auth.create_access_token, auth.jwt_encode.
  eexists. split; [reflexivity|].
  fold (spec.expiry now delta).
  split.
  - rewrite !lookup_alter_ne by done.
    rewrite lookup_alter_eq, lookup_insert_eq. reflexivity.
  - rewrite !lookup_alter_ne by done.
    rewrite lookup_insert_ne by done. apply lookup_singleton_eq.
Qed.

(** Verification of a token signed with the server's key, carrying a
    string subject and an integer expiry: the clock decides, in whole
    seconds. *)
Lemma verify_token_signed now' claims s exp :
  claims !! "exp" = Some (CInt exp) ->
  claims !! "sub" = Some (CStr s) ->
  auth.verify_token hs256 now' (Jws claims (hs256 config.SECRET_KEY claims))
  = if (exp <? auth.timegm now')%Z
    then py.Raise (py.EHTTP auth.credentials_exception)
    else py.Ok (mkTokenData (Some s)).
Proof.
  intros Hexp Hsub.
  unfold auth.verify_token, auth.jwt_decode.
  rewrite String.eqb_refl.
  unfold auth.validate_exp. rewrite Hexp. simpl.
  destruct (exp <? auth.timegm now')%Z; simpl; [done|].
  unfold auth.validate_sub. rewrite Hsub. simpl. by rewrite Hsub.
Qed.

Lemma verify_create now now' s delta :
  auth.verify_token hs256 now'
    (auth.create_access_token hs256 now {[ "sub" := CStr s ]} delta)
  = if (auth.timegm (spec.expiry now delta) <? auth.timegm now')%Z
    then py.Raise (py.EHTTP auth.credentials_exception)
    else py.Ok (mkTokenData (Some s)).
Proof.
  destruct (create_access_token_shape now s delta) as (claims & -> & Hexp & Hsub).
  by apply verify_token_signed.
Qed.


End token_facts.

Lemma timegm_mono a b : a <= b -> auth.timegm a <= auth.timegm b.
Proof. intros H. unfold auth.timegm. apply Z.div_le_mono; lia. Qed.

Lemma timegm_next_second a b :
  a + 1000000 <= b -> auth.timegm a < auth.timegm b.
Proof.
  intros H. pose proof (timegm_mono _ _ H) as Hm.
  unfold auth.timegm in *.
  replace (a + 1000000) with (a + 1 * 1000000) in Hm by lia.
  rewrite Z.div_add in Hm by lia. lia.
Qed.

(** The zero lifetime: [if expires_delta:] takes a zero timedelta for an
    absent one, so the token lives for the default 180 minutes. *)
Example create_access_token_zero_lifetime :
  auth.verify_token spec.sample_hs256 60000000
    (auth.create_access_token spec.sample_hs256 0
       {[ "sub" := models.CStr "alice" ]} (Some 0))
  = py.Ok (models.mkTokenData (Some "alice")).
Proof. vm_compute. reflexivity. Qed.




(** ** Vector index: clear and query *)










(** ** Retrieval: the number of matches *)



(** ** Security gateway *)

Section header_facts.

Lemma headers_get_filter_other key k (l : list (string * string)) :
  py.lower key <> k ->
  security.headers_get key (filter (fun kv => negb (String.eqb (fst kv) k)) l)
  = security.headers_get key l.
Proof.
  intros Hne. induction l as [|[k' v'] l IH]; [done|].
  rewrite filter_cons. simpl.
  destruct (String.eqb k' k) eqn:Ek; simpl.
  - apply String.eqb_eq in Ek. subst k'.
    assert (E : String.eqb k (py.lower key) = false)
      by (apply String.eqb_neq; congruence).
    by rewrite E.
  - by rewrite IH.
Qed.

Lemma headers_get_set_raw_same key v l :
  security.headers_get key (main.set_raw (py.lower key) v l) = Some v.
Proof.
  induction l as [|[k' v'] l IH]; simpl.
  - by rewrite String.eqb_refl.
  - destruct (String.eqb k' (py.lower key)) eqn:Ek; simpl.
    + by rewrite String.eqb_refl.
    + by rewrite Ek.
Qed.

Lemma headers_get_set_raw_other key k v l :
  py.lower key <> k ->
  security.headers_get key (main.set_raw k v l) = security.headers_get key l.
Proof.
  intros Hne.
  assert (E : String.eqb k (py.lower key) = false)
    by (apply String.eqb_neq; congruence).
  induction l as [|[k' v'] l IH]; simpl.
  - by rewrite E.
  - destruct (String.eqb k' k) eqn:Ek; simpl.
    + apply String.eqb_eq in Ek. subst k'. rewrite E.
      by apply headers_get_filter_other.
    + by rewrite IH.
Qed.

Lemma get_set_header_same r name value :
  main.get_header (main.set_header r name value) name = Some value.
Proof. apply headers_get_set_raw_same. Qed.

Lemma get_set_header_other r name name' value :
  py.lower name' <> py.lower name ->
  main.get_header (main.set_header r name value) name'
  = main.get_header r name'.
Proof. apply headers_get_set_raw_other. Qed.

End header_facts.

(** When the rest of the stack returns a response, [add_security_headers]
    hands it on with every hardening header set, status and body as they
    were. *)
Lemma add_security_headers_attaches request call_next response :
  call_next request = py.Ok response ->
  exists response',
    main.add_security_headers request call_next = py.Ok response'
    /\ Forall (fun h => main.get_header response' (fst h) = Some (snd h))
              security.get_security_headers
    /\ main.status response' = main.status response
    /\ main.content response' = main.content response.
Proof.
  intros Hnext. unfold main.add_security_headers. rewrite Hnext. simpl.
  eexists. split; [reflexivity|]. split; [|done].
  repeat apply Forall_cons_2; [ .. | apply Forall_nil_2 ];
    cbn [fst snd];
    repeat first
      [ apply get_set_header_same
      | rewrite get_set_header_other by (vm_compute; discriminate) ].
Qed.

(** A route that raises an HTTPException is answered through the registered
    handler, and that answer gets the hardening headers too. *)
Lemma app_route_error_has_headers tokens router request exc :
  spec.is_exempt request = true ->
  router request = py.Raise (py.EHTTP exc) ->
  main.status (main.app tokens router request) = py.status_code exc
  /\ Forall (fun h => main.get_header (main.app tokens router request) (fst h)
                      = Some (snd h))
            security.get_security_headers.
Proof.
  intros Hex Hroute.
  assert (Hinner :
    main.validate_request_security tokens request (main.exception_middleware router)
    = py.Ok (main.http_exception_handler request exc)).
  { unfold main.validate_request_security, main.exception_middleware.
    destruct (String.eqb (security.method request) "OPTIONS") eqn:E1;
      [by rewrite Hroute|].
    destruct (String.prefix "/auth" (security.url_path request)) eqn:E2;
      [by rewrite Hroute|].
    destruct (String.prefix "/admin" (security.url_path request)) eqn:E3;
      [by rewrite Hroute|].
    destruct (existsb (String.eqb (security.url_path request)) main.exempt_paths)
      eqn:E4; [by rewrite Hroute|].
    unfold spec.is_exempt in Hex. rewrite E1, E2, E3, E4 in Hex. discriminate Hex. }
  destruct (add_security_headers_attaches request
              (fun request => main.validate_request_security tokens request
                                (main.exception_middleware router))
              _ Hinner) as (response' & Hadd & Hall & Hst & _).
  unfold main.app, main.server_error_middleware. rewrite Hadd.
  split; [by rewrite Hst|done].
Qed.

(** Whatever the security check raises on a request that is not exempt
    reaches the handler for [Exception]: the answer is its 500 response,
    which carries none of the hardening headers. *)
Lemma app_gateway_rejection tokens router request e :
  spec.is_exempt request = false ->
  security.validate_request_security tokens request = py.Raise e ->
  main.app tokens router request = main.general_exception_handler request e
  /\ Forall (fun h => main.get_header (main.app tokens router request) (fst h)
                      = None)
            security.get_security_headers.
Proof.
  intros Hex Hraise.
  assert (Happ : main.app tokens router request
                 = main.general_exception_handler request e).
  { unfold main.app, main.server_error_middleware, main.add_security_headers.
    unfold main.validate_request_security, spec.is_exempt in *.
    apply orb_false_iff in Hex as [Hex H4].
    apply orb_false_iff in Hex as [Hex H3].
    apply orb_false_iff in Hex as [H1 H2].
    by rewrite H1, H2, H3, H4, Hraise. }
  split; [exact Happ|]. rewrite Happ.
  repeat apply Forall_cons_2; [ .. | apply Forall_nil_2 ]; reflexivity.
Qed.

(** C4, at the failing input.  A request to a protected route without a
    token header is rejected inside the security middleware by raising; the
    exception passes through [add_security_headers] and is answered by the
    handler for [Exception]: the response has status 500 and carries none of
    the hardening headers. *)
Theorem C4_gateway_rejection_lacks_security_headers
    (tokens : list (string * string))
    (router : security.Request -> py.result main.Response) :
  let response :=
    main.app tokens router (security.mkRequest "GET" "/retrieval/info" []) in
  main.status response = 500
  /\ Forall (fun h => main.get_header response (fst h) = None)
            security.get_security_headers.
Proof.
  cbv zeta. split; [reflexivity|].
  repeat apply Forall_cons_2; [ .. | apply Forall_nil_2 ]; reflexivity.
Qed.

Lemma is_exempt_false request :
  spec.is_exempt request = false ->
  String.eqb (security.method request) "OPTIONS" = false
  /\ String.prefix "/auth" (security.url_path request) = false
  /\ String.prefix "/admin" (security.url_path request) = false
  /\ existsb (String.eqb (security.url_path request)) main.exempt_paths = false.
Proof.
  unfold spec.is_exempt. intros H.
  apply orb_false_iff in H as [H H4].
  apply orb_false_iff in H as [H H3].
  apply orb_false_iff in H as [H1 H2]. done.
Qed.

(** On a request that is not exempt the middleware is the gateway check
    followed by the rest of the stack. *)
Lemma middleware_not_exempt tokens request call_next :
  spec.is_exempt request = false ->
  main.validate_request_security tokens request call_next
  = (security.validate_request_security tokens request ;;; call_next request).
Proof.
  intros (H1 & H2 & H3 & H4)%is_exempt_false.
  unfold main.validate_request_security. by rewrite H1, H2, H3, H4.
Qed.








(** ** Authentication: uniform results *)

Lemma authenticate_user_loop_no_match hs256 now items tok :
  existsb (String.eqb tok) (map snd items) = false ->
  auth.authenticate_user_loop hs256 now items tok = spec.invalid_token.
Proof.
  induction items as [|[username valid_token] items IH]; simpl; [done|].
  intros [Hhd Htl]%orb_false_iff. rewrite Hhd. by apply IH.
Qed.

Lemma authenticate_user_loop_outcome hs256 now items tok :
  auth.authenticate_user_loop hs256 now items tok = spec.invalid_token
  \/ exists access_token,
       auth.authenticate_user_loop hs256 now items tok
       = models.mkAuthResponse true (Some access_token)
           (Some "Authentication successful").
Proof.
  induction items as [|[username valid_token] items IH]; simpl; [by left|].
  destruct (String.eqb tok valid_token); [right; eauto|exact IH].
Qed.

Lemma authenticate_user_password_outcome hs256 now user password st :
  (auth.authenticate_user_password hs256 now user password st).1
  = spec.invalid_username_or_password
  \/ exists access_token,
       (auth.authenticate_user_password hs256 now user password st).1
       = models.mkAuthResponse true (Some access_token)
           (Some "Authentication successful").
Proof.
  unfold auth.authenticate_user_password.
  destruct (user_store.get_password user st) as [[pw|] st'].
  - destruct (String.eqb pw password); simpl; [right; eauto|by left].
  - by left.
Qed.

(** C6.  Both variants answer with the one result record (success, token,
    message).  In the username/password variant every failure is the same
    record: an unknown username and a wrong password cannot be told apart.
    In the static-token variant every unmatched secret gives the same
    record.  A success carries a token and the same message in both. *)
Theorem C6_uniform_authentication_failure
    (hs256 : string -> gmap string models.claim -> string)
    (tokens : list (string * string)) (now : Z) :
  (forall user password st,
      (user_store.get_password user st).1 = None ->
      (auth.authenticate_user_password hs256 now user password st).1
      = spec.invalid_username_or_password)
  /\ (forall user password st pw,
        (user_store.get_password user st).1 = Some pw ->
        pw <> password ->
        (auth.authenticate_user_password hs256 now user password st).1
        = spec.invalid_username_or_password)
  /\ (forall user password st,
        models.success
          (auth.authenticate_user_password hs256 now user password st).1 = false ->
        (auth.authenticate_user_password hs256 now user password st).1
        = spec.invalid_username_or_password)
  /\ (forall tok,
        auth.is_static_token tokens tok = false ->
        auth.authenticate_user hs256 tokens now tok = spec.invalid_token)
  /\ (forall tok,
        models.success (auth.authenticate_user hs256 tokens now tok) = false ->
        auth.authenticate_user hs256 tokens now tok = spec.invalid_token)
  /\ (forall user password st,
        models.success
          (auth.authenticate_user_password hs256 now user password st).1 = true ->
        exists access_token,
          (auth.authenticate_user_password hs256 now user password st).1
          = models.mkAuthResponse true (Some access_token)
              (Some "Authentication successful"))
  /\ (forall tok,
        models.success (auth.authenticate_user hs256 tokens now tok) = true ->
        exists access_token,
          auth.authenticate_user hs256 tokens now tok
          = models.mkAuthResponse true (Some access_token)
              (Some "Authentication successful"))
  /\ (forall credentials username password st,
        py.truthy credentials = true ->
        (api.authenticate hs256 tokens now config.TOKEN
           (Some credentials) username password st).1
        = py.Ok (auth.authenticate_user hs256 tokens now credentials))
  /\ (forall token_cred user password st,
        py.truthy user = true ->
        py.truthy password = true ->
        (api.authenticate hs256 tokens now config.USERNAME_PASSWORD
           token_cred (Some user) (Some password) st).1
        = py.Ok (auth.authenticate_user_password hs256 now user password st).1).
Proof.
  repeat split.
  - intros user password st Hnone. unfold auth.authenticate_user_password.
    destruct (user_store.get_password user st) as [stored st']. simpl in Hnone.
    by subst stored.
  - intros user password st pw Hsome Hne. unfold auth.authenticate_user_password.
    destruct (user_store.get_password user st) as [stored st']. simpl in Hsome.
    subst stored. apply String.eqb_neq in Hne. by rewrite Hne.
  - intros user password st Hfail.
    destruct (authenticate_user_password_outcome hs256 now user password st)
      as [H|[t H]]; [done|]. rewrite H in Hfail. discriminate Hfail.
  - intros tok Hnot. by apply authenticate_user_loop_no_match.
  - intros tok Hfail. unfold auth.authenticate_user in *.
    destruct (authenticate_user_loop_outcome hs256 now tokens tok)
      as [H|[t H]]; [done|]. rewrite H in Hfail. discriminate Hfail.
  - intros user password st Hok.
    destruct (authenticate_user_password_outcome hs256 now user password st)
      as [H|H]; [|done]. rewrite H in Hok. discriminate Hok.
  - intros tok Hok. unfold auth.authenticate_user in *.
    destruct (authenticate_user_loop_outcome hs256 now tokens tok)
      as [H|H]; [|done]. rewrite H in Hok. discriminate Hok.
  - intros credentials username password st Htruthy.
    unfold api.authenticate. by rewrite Htruthy.
  - intros token_cred user password st Hu Hp.
    unfold api.authenticate. rewrite Hu, Hp. simpl.
    by destruct (auth.authenticate_user_password hs256 now user password st).
Qed.

(** A worked instance of C6: an unknown user, a wrong password for a known
    user and an unmatched secret. *)
Lemma C6_uniform_authentication_failure_witness :
  (auth.authenticate_user_password spec.sample_hs256 0 "dave" "pw-carol"
     spec.sample_users).1
  = (auth.authenticate_user_password spec.sample_hs256 0 "carol" "guess"
       spec.sample_users).1
  /\ auth.authenticate_user spec.sample_hs256 spec.sample_static_tokens 0 "guess"
     = spec.invalid_token.
Proof.
  destruct (C6_uniform_authentication_failure spec.sample_hs256
              spec.sample_static_tokens 0)
    as (Hunknown & Hwrong & _ & Hstatic & _).
  split.
  - rewrite (Hunknown "dave" "pw-carol" spec.sample_users eq_refl).
    rewrite (Hwrong "carol" "guess" spec.sample_users "pw-carol" eq_refl);
      [reflexivity|discriminate].
  - apply Hstatic. reflexivity.
Defined.

(** ** Retrieval endpoint: the empty-prompt check *)

Lemma truthy_opt_false o :
  py.truthy_opt o = false <-> o = None \/ o = Some EmptyString.
Proof.
  destruct o as [[|c s]|]; simpl; split; intros H; try done; eauto.
  - destruct H as [H|H]; discriminate H.
Qed.

(** C9.  The handler raises the 400 error exactly when the prompt is [None]
    or the empty string.  The check comes before sanitization: a non-empty
    prompt made of denylist characters only is not rejected, and the index
    is queried with the empty string. *)
Theorem C9_retrieve_empty_prompt_check
    (distance : string -> string -> Z) (vs : database.VectorStoreManager)
    (request : models.RetrievalRequest) :
  (spec.raises_400 (api.retrieve distance vs request) = true
   <-> models.latestUserPrompt request = None
       \/ models.latestUserPrompt request = Some EmptyString)
  /\ (forall prompt,
        models.latestUserPrompt request = Some prompt ->
        prompt <> EmptyString ->
        spec.all_dangerous prompt = true ->
        spec.raises_400 (api.retrieve distance vs request) = false
        /\ api.retrieve distance vs request
           = match database.similarity_search distance vs EmptyString
                     (if (models.maxMatches request >? 0)%Z
                      then models.maxMatches request else 3) with
             | py.Ok docs => py.Ok (map retrieval.to_context docs)
             | py.Raise e =>
                 py.Raise (py.EHTTP (py.mkHTTPException 500
                   ("Retrieval process failed: " +:+ py.str_exn e) None))
             end).
Proof.
  assert (Hbody : forall prompt,
    models.latestUserPrompt request = Some prompt -> prompt <> EmptyString ->
    api.retrieve distance vs request
    = match database.similarity_search distance vs (security.sanitize_input prompt)
              (if (models.maxMatches request >? 0)%Z
               then models.maxMatches request else 3) with
      | py.Ok docs => py.Ok (map retrieval.to_context docs)
      | py.Raise e =>
          py.Raise (py.EHTTP (py.mkHTTPException 500
            ("Retrieval process failed: " +:+ py.str_exn e) None))
      end).
  { intros prompt Hp Hne. unfold api.retrieve. rewrite Hp.
    destruct prompt as [|c p]; [done|]. cbn [py.truthy_opt py.truthy negb].
    unfold retrieval.process_retrieval_request. cbn [models.latestUserPrompt
      models.maxMatches].
    by destruct (database.similarity_search _ _ _ _). }
  split.
  - rewrite <- truthy_opt_false.
    destruct (models.latestUserPrompt request) as [[|c p]|] eqn:Hp.
    + unfold api.retrieve. rewrite Hp. done.
    + rewrite (Hbody (String c p)) by done.
      by destruct (database.similarity_search _ _ _ _).
    + unfold api.retrieve. rewrite Hp. done.
  - intros prompt Hp Hne Hall.
    rewrite (Hbody prompt Hp Hne), (sanitize_input_all_dangerous _ Hall).
    split; [|reflexivity].
    by destruct (database.similarity_search _ _ _ _).
Qed.

(** A worked instance of C9: the prompt made of a less-than and a
    greater-than sign reaches the index as the empty string; the empty
    prompt is refused. *)
Lemma C9_retrieve_witness :
  api.retrieve spec.sample_distance spec.sample_store
    (models.mkRetrievalRequest (Some "<>") 1)
  = match database.similarity_search spec.sample_distance spec.sample_store
            EmptyString 1 with
    | py.Ok docs => py.Ok (map retrieval.to_context docs)
    | py.Raise e =>
        py.Raise (py.EHTTP (py.mkHTTPException 500
          ("Retrieval process failed: " +:+ py.str_exn e) None))
    end
  /\ spec.raises_400
       (api.retrieve spec.sample_distance spec.sample_store
          (models.mkRetrievalRequest (Some EmptyString) 1)) = true.
Proof.
  destruct (C9_retrieve_empty_prompt_check spec.sample_distance spec.sample_store
              (models.mkRetrievalRequest (Some "<>") 1)) as [_ Hdenied].
  destruct (C9_retrieve_empty_prompt_check spec.sample_distance spec.sample_store
              (models.mkRetrievalRequest (Some EmptyString) 1)) as [Hiff _].
  split.
  - apply (Hdenied "<>"); [reflexivity|discriminate|reflexivity].
  - apply Hiff. right. reflexivity.
Defined.

(** ** Credential store *)

Lemma get_password_load username st :
  (user_store.get_password username st).1 = (user_store._load_users st).1 !! username.
Proof.
  unfold user_store.get_password. by destruct (user_store._load_users st).
Qed.

(** After an upsert the cache holds the loaded users with the one entry
    set. *)
Lemma upsert_user_cache username password st :
  user_store._users_cache (user_store.upsert_user username password st).2
  = Some (<[username := password]> (user_store._load_users st).1).
Proof.
  unfold user_store.upsert_user.
  destruct (user_store._load_users st) as [users st1]. simpl.
  unfold user_store._save_users. simpl.
  by destruct (user_store.writable st1).
Qed.

Lemma load_users_cached users st :
  user_store._users_cache st = Some users -> (user_store._load_users st).1 = users.
Proof. intros H. unfold user_store._load_users. by rewrite H. Qed.

Lemma upsert_user_completes username password st :
  user_store.writable st = true ->
  (user_store.upsert_user username password st).1 = py.Ok tt.
Proof.
  intros Hw. unfold user_store.upsert_user, user_store._load_users.
  destruct (user_store._users_cache st); simpl;
    unfold user_store._save_users; simpl; by rewrite Hw.
Qed.

(** C10.  On a writable store [upsert_user] completes; once it has
    completed, [get_password] of the upserted name returns the new password,
    [get_password] of every other name returns what it returned before, and
    every name that had a password still has one. *)
Theorem C10_upsert_user_frame
    (u p : string) (st : user_store.state) :
  (user_store.writable st = true ->
     (user_store.upsert_user u p st).1 = py.Ok tt)
  /\ ((user_store.upsert_user u p st).1 = py.Ok tt ->
      let st' := (user_store.upsert_user u p st).2 in
      (user_store.get_password u st').1 = Some p
      /\ (forall v, v <> u ->
            (user_store.get_password v st').1 = (user_store.get_password v st).1)
      /\ (forall v, is_Some (user_store.get_password v st).1 ->
            is_Some (user_store.get_password v st').1)).
Proof.
  split; [apply upsert_user_completes|].
  intros _. cbv zeta.
  pose proof (upsert_user_cache u p st) as Hcache.
  apply load_users_cached in Hcache.
  repeat split.
  - rewrite get_password_load, Hcache. apply lookup_insert_eq.
  - intros v Hv. rewrite !get_password_load, Hcache.
    by apply lookup_insert_ne.
  - intros v Hsome. rewrite get_password_load in *. rewrite Hcache.
    destruct (decide (u = v)) as [->|Hne].
    + rewrite lookup_insert_eq. eauto.
    + by rewrite lookup_insert_ne.
Qed.

(** A worked instance of C10: a new user is added next to the stored one. *)
Lemma C10_upsert_user_witness :
  let st' := (user_store.upsert_user "dave" "pw-dave" spec.sample_users).2 in
  (user_store.get_password "dave" st').1 = Some "pw-dave"
  /\ (user_store.get_password "carol" st').1 = Some "pw-carol".
Proof.
  cbv zeta.
  destruct (C10_upsert_user_frame "dave" "pw-dave" spec.sample_users)
    as [Hdone Hframe].
  destruct (Hframe (Hdone eq_refl)) as (Hnew & Hother & _).
  split; [exact Hnew|].
  rewrite (Hother "carol"); [reflexivity|discriminate].
Defined.

(** * Further properties of the code *)

(** ** Sanitization keeps every other character *)

Lemma sanitize_input_cons c s :
  security.sanitize_input (String c s)
  = if existsb (Ascii.eqb c) security.dangerous_chars
    then security.sanitize_input s
    else String c (security.sanitize_input s).
Proof. apply fold_replace_cons. Qed.

(** [sanitize_input] is one pass that drops the denylist characters and
    nothing else: the other characters stay, in their order.  So it never
    lengthens the text, and sanitizing two pieces and joining them is
    sanitizing the joined text. *)
Theorem sanitize_input_is_filter (s : string) :
  list_ascii_of_string (security.sanitize_input s)
  = List.filter (fun c => negb (existsb (Ascii.eqb c) security.dangerous_chars))
                (list_ascii_of_string s)
  /\ (String.length (security.sanitize_input s) <= String.length s)%nat
  /\ (forall t, security.sanitize_input (s +:+ t)
                = security.sanitize_input s +:+ security.sanitize_input t).
Proof.
  induction s as [|c s (IHf & IHl & IHa)].
  - repeat split; try done.
  - rewrite sanitize_input_cons. repeat split.
    + cbn [list_ascii_of_string List.filter].
      destruct (existsb (Ascii.eqb c) security.dangerous_chars);
        cbn [negb list_ascii_of_string]; by rewrite IHf.
    + cbn [String.length].
      destruct (existsb (Ascii.eqb c) security.dangerous_chars);
        cbn [String.length]; lia.
    + intros t. change (String c s +:+ t) with (String c (s +:+ t)).
      rewrite sanitize_input_cons, IHa.
      by destruct (existsb (Ascii.eqb c) security.dangerous_chars).
Qed.

(** ** Path validation *)

Section substring_facts.

Lemma prefix_app_weaken p q s :
  String.prefix (p +:+ q) s = true -> String.prefix p s = true.
Proof.
  revert s. induction p as [|a p IH]; intros s; [by destruct s|].
  destruct s as [|b s]; simpl; [done|].
  destruct (ascii_dec a b); auto.
Qed.

Lemma prefix_app_extend p s t :
  String.prefix p s = true -> String.prefix p (s +:+ t) = true.
Proof.
  revert s. induction p as [|a p IH]; intros s; [by destruct s, t|].
  destruct s as [|b s]; simpl; [done|].
  destruct (ascii_dec a b); auto.
Qed.

Lemma str_in_weaken p q s :
  py.str_in (p +:+ q) s = true -> py.str_in p s = true.
Proof.
  induction s as [|b s IH]; cbn [py.str_in]; intros H.
  - apply orb_true_iff in H as [H|H]; [|done].
    by rewrite (prefix_app_weaken _ _ _ H).
  - apply orb_true_iff in H as [H|H].
    + by rewrite (prefix_app_weaken _ _ _ H).
    + rewrite (IH H). apply orb_true_r.
Qed.

Lemma str_in_app_r p s t :
  py.str_in p s = true -> py.str_in p (s +:+ t) = true.
Proof.
  induction s as [|b s IH]; cbn [py.str_in]; intros H.
  - apply orb_true_iff in H as [H|H]; [|done].
    destruct p; [|done]. by destruct t.
  - change (String b s +:+ t) with (String b (s +:+ t)). cbn [py.str_in].
    apply orb_true_iff in H as [H|H].
    + pose proof (prefix_app_extend _ (String b s) t H) as H'.
      change (String b s +:+ t) with (String b (s +:+ t)) in H'.
      by rewrite H'.
    + rewrite (IH H). apply orb_true_r.
Qed.

Lemma str_in_app_l p s t :
  py.str_in p s = true -> py.str_in p (t +:+ s) = true.
Proof.
  intros H. induction t as [|b t IH]; [done|].
  change (String b t +:+ s) with (String b (t +:+ s)). cbn [py.str_in].
  rewrite IH. apply orb_true_r.
Qed.

End substring_facts.

(** [validate_path] accepts a path exactly when it holds no dot-dot, no
    tilde and no lower-case percent-encoded dot-dot-slash (the two patterns
    that extend dot-dot add nothing); a refused path stays refused whatever
    is written before or after it. *)
Theorem validate_path_accepts_iff (path : string) :
  security.validate_path path
  = negb (py.str_in ".." path || py.str_in "~" path
          || py.str_in "%2e%2e%2f" path)
  /\ (forall before after,
        security.validate_path path = false ->
        security.validate_path (before +:+ path +:+ after) = false).
Proof.
  assert (Hshape : forall q,
    security.validate_path q
    = negb (py.str_in ".." q || py.str_in "~" q || py.str_in "%2e%2e%2f" q)).
  { intros q. unfold security.validate_path, security.dangerous_patterns.
    cbn [existsb]. f_equal.
    destruct (py.str_in ".." q) eqn:Hdd.
    - by rewrite !orb_true_r.
    - assert (H1 : py.str_in "../" q = false).
      { destruct (py.str_in "../" q) eqn:E; [|done].
        apply (str_in_weaken ".." "/") in E. congruence. }
      assert (H2 : py.str_in "..\" q = false).
      { destruct (py.str_in "..\" q) eqn:E; [|done].
        apply (str_in_weaken ".." "\") in E. congruence. }
      rewrite H1, H2. simpl.
      by destruct (py.str_in "%2e%2e%2f" q), (py.str_in "~" q). }
  split; [apply Hshape|].
  intros before after. rewrite !Hshape.
  intros H. apply negb_false_iff in H. apply negb_false_iff.
  repeat (apply orb_true_iff in H as [H|H]).
  - rewrite (str_in_app_l _ _ before (str_in_app_r _ _ after H)). done.
  - rewrite (str_in_app_l _ _ before (str_in_app_r _ _ after H)).
    by rewrite orb_true_r.
  - rewrite (str_in_app_l _ _ before (str_in_app_r _ _ after H)).
    by rewrite orb_true_r.
Qed.

(** A worked instance: a traversal stays refused inside a longer path; the
    upper-case percent encoding of the same traversal is accepted. *)
Lemma validate_path_witness :
  security.validate_path ("files/" +:+ "../etc" +:+ "/passwd") = false
  /\ security.validate_path "files/%2E%2E%2Fetc" = true.
Proof.
  destruct (validate_path_accepts_iff "../etc") as [_ Hstay].
  split; [|reflexivity].
  apply (Hstay "files/" "/passwd"). reflexivity.
Defined.

(** ** Provider-type check and start-up *)

(** Under the allowed type ANY every provider type passes, also a missing
    one; under NONE none passes; under SELF_HOSTED a missing provider type
    is refused.  As the start-up check passes no provider type, the server
    starts exactly when the allowed type is ANY. *)
Theorem startup_event_needs_any (allowed_type : config.ProviderType) :
  (forall provider_type,
      security.validate_provider_type config.ANY provider_type = true)
  /\ (forall provider_type,
        security.validate_provider_type config.PT_NONE provider_type = false)
  /\ (main.startup_event allowed_type = py.Ok tt <-> allowed_type = config.ANY)
  /\ (allowed_type <> config.ANY ->
      main.startup_event allowed_type
      = py.Raise (py.EOther "Invalid provider type configuration"))
  /\ main.startup_event config.allowedProviderType = py.Ok tt.
Proof.
  repeat split; try done.
  - by destruct allowed_type.
  - by intros ->.
  - by destruct allowed_type.
Qed.

Lemma startup_event_witness :
  main.startup_event config.SELF_HOSTED
  = py.Raise (py.EOther "Invalid provider type configuration").
Proof.
  destruct (startup_event_needs_any config.SELF_HOSTED) as (_ & _ & _ & H & _).
  apply H. discriminate.
Defined.

(** ** Token service *)

(** What [verify_token] accepts: only a token whose signature is the one the
    server's key gives for its claims, whose subject is a string (the user
    name returned) and whose integer expiry, when there is one, is not
    before the clock in whole seconds. *)
Theorem verify_token_sound
    (hs256 : string -> gmap string models.claim -> string)
    (now : Z) (t : models.token) (token_data : models.TokenData) :
  auth.verify_token hs256 now t = py.Ok token_data ->
  exists claims u,
    t = models.Jws claims (hs256 config.SECRET_KEY claims)
    /\ claims !! "sub" = Some (models.CStr u)
    /\ token_data = models.mkTokenData (Some u)
    /\ (forall e, claims !! "exp" = Some (models.CInt e) -> auth.timegm now <= e).
Proof.
  unfold auth.verify_token, auth.jwt_decode.
  destruct t as [claims signature|s]; [|discriminate].
  destruct (String.eqb signature (hs256 config.SECRET_KEY claims)) eqn:Hsig;
    [|discriminate].
  apply String.eqb_eq in Hsig. subst signature.
  destruct (auth.validate_exp claims now) as [[]|e] eqn:Hexp; simpl;
    [|destruct e; discriminate].
  destruct (auth.validate_sub claims) as [[]|e] eqn:Hsub; simpl;
    [|destruct e; discriminate].
  destruct (claims !! "sub") as [[u| | |]|] eqn:Hs; try discriminate.
  intros [= <-]. exists claims, u.
  split; [done|]. split; [done|]. split; [done|].
  intros e He. unfold auth.validate_exp in Hexp. rewrite He in Hexp.
  simpl in Hexp. destruct (e <? auth.timegm now)%Z eqn:Hlt; [discriminate|].
  by apply Z.ltb_ge.
Qed.

Lemma verify_token_sound_witness :
  exists claims u,
    auth.create_access_token spec.sample_hs256 0
      {[ "sub" := models.CStr "alice" ]} None
    = models.Jws claims (spec.sample_hs256 config.SECRET_KEY claims)
    /\ claims !! "sub" = Some (models.CStr u)
    /\ models.mkTokenData (Some "alice") = models.mkTokenData (Some u)
    /\ (forall e, claims !! "exp" = Some (models.CInt e) -> auth.timegm 5 <= e).
Proof.
  apply (verify_token_sound spec.sample_hs256 5
           (auth.create_access_token spec.sample_hs256 0
              {[ "sub" := models.CStr "alice" ]} None)).
  vm_compute. reflexivity.
Defined.







(** Without a lifetime, and with a lifetime of zero, the token lives for the
    configured 180 minutes: it is accepted before issuance + 180 minutes and
    rejected from one second after that. *)
Theorem create_access_token_default_lifetime
    (hs256 : string -> gmap string models.claim -> string)
    (s : string) (expires_delta : option Z) (now now' : Z) :
  expires_delta = None \/ expires_delta = Some 0 ->
  let tok :=
    auth.create_access_token hs256 now {[ "sub" := models.CStr s ]}
      expires_delta in
  (now' < now + 180 * 60 * 1000000 ->
     auth.verify_token hs256 now' tok = py.Ok (models.mkTokenData (Some s)))
  /\ (now + 180 * 60 * 1000000 + 1000000 <= now' ->
      auth.verify_token hs256 now' tok
      = py.Raise (py.EHTTP auth.credentials_exception)).
Proof.
  intros Hdelta. cbv zeta. rewrite verify_create.
  assert (Hexp : spec.expiry now expires_delta = now + 180 * 60 * 1000000).
  { destruct Hdelta as [-> | ->]; reflexivity. }
  rewrite Hexp. split.
  - intros Hlt.
    assert (Hle : auth.timegm now' <= auth.timegm (now + 180 * 60 * 1000000))
      by (apply timegm_mono; lia).
    apply Z.ltb_ge in Hle. by rewrite Hle.
  - intros Hlate. apply timegm_next_second in Hlate.
    apply Z.ltb_lt in Hlate. by rewrite Hlate.
Qed.

Lemma create_access_token_default_lifetime_witness :
  auth.verify_token spec.sample_hs256 60000000
    (auth.create_access_token spec.sample_hs256 0
       {[ "sub" := models.CStr "alice" ]} (Some 0))
  = py.Ok (models.mkTokenData (Some "alice")).
Proof.
  destruct (create_access_token_default_lifetime spec.sample_hs256 "alice"
              (Some 0) 0 60000000 (or_intror eq_refl)) as [Hearly _].
  apply Hearly. lia.
Defined.

(** ** Static-token authentication *)

Lemma expiry_configured_lifetime now :
  spec.expiry now
    (Some (auth.timedelta_minutes config.ACCESS_TOKEN_EXPIRE_MINUTES))
  = now + 180 * 60 * 1000000.
Proof. reflexivity. Qed.

Lemma authenticate_user_loop_match hs256 now items tok :
  existsb (String.eqb tok) (map snd items) = true ->
  exists u,
    In (u, tok) items
    /\ auth.authenticate_user_loop hs256 now items tok
       = models.mkAuthResponse true
           (Some (auth.create_access_token hs256 now
                    {[ "sub" := models.CStr u ]}
                    (Some (auth.timedelta_minutes
                             config.ACCESS_TOKEN_EXPIRE_MINUTES))))
           (Some "Authentication successful").
Proof.
  induction items as [|[username valid_token] items IH]; simpl; [done|].
  destruct (String.eqb tok valid_token) eqn:E.
  - apply String.eqb_eq in E. subst valid_token. intros _.
    exists username. split; [by left|done].
  - simpl. intros H. destruct (IH H) as (u & Hin & Hres).
    exists u. split; [by right|done].
Qed.

(** [authenticate_user] accepts exactly the secrets that [is_static_token]
    recognises, so the gateway refuses as session proof exactly what the
    static-token login accepts.  On success the subject is an entry of the
    table with that secret, and the issued token verifies to that subject
    during the next 180 minutes. *)
Theorem authenticate_user_iff_static_token
    (hs256 : string -> gmap string models.claim -> string)
    (tokens : list (string * string)) (now : Z) (tok : string) :
  models.success (auth.authenticate_user hs256 tokens now tok)
  = auth.is_static_token tokens tok
  /\ (auth.is_static_token tokens tok = true ->
      exists u access_token,
        In (u, tok) tokens
        /\ auth.authenticate_user hs256 tokens now tok
           = models.mkAuthResponse true (Some access_token)
               (Some "Authentication successful")
        /\ (forall now', now' < now + 180 * 60 * 1000000 ->
              auth.verify_token hs256 now' access_token
              = py.Ok (models.mkTokenData (Some u)))).
Proof.
  unfold auth.authenticate_user, auth.is_static_token.
  destruct (existsb (String.eqb tok) (map snd tokens)) eqn:Hst.
  - destruct (authenticate_user_loop_match hs256 now tokens tok Hst)
      as (u & Hin & Hres).
    rewrite Hres. split; [done|]. intros _.
    exists u, (auth.create_access_token hs256 now {[ "sub" := models.CStr u ]}
                 (Some (auth.timedelta_minutes config.ACCESS_TOKEN_EXPIRE_MINUTES))).
    split; [done|]. split; [done|].
    intros now' Hlt. rewrite verify_create, expiry_configured_lifetime.
    assert (Hle : auth.timegm now' <= auth.timegm (now + 180 * 60 * 1000000))
      by (apply timegm_mono; lia).
    apply Z.ltb_ge in Hle. by rewrite Hle.
  - rewrite (authenticate_user_loop_no_match hs256 now tokens tok Hst).
    split; [done|discriminate].
Qed.

Lemma authenticate_user_iff_static_token_witness :
  exists u access_token,
    In (u, "bob-secret") spec.sample_static_tokens
    /\ auth.authenticate_user spec.sample_hs256 spec.sample_static_tokens 0
         "bob-secret"
       = models.mkAuthResponse true (Some access_token)
           (Some "Authentication successful")
    /\ (forall now', now' < 0 + 180 * 60 * 1000000 ->
          auth.verify_token spec.sample_hs256 now' access_token
          = py.Ok (models.mkTokenData (Some u))).
Proof.
  destruct (authenticate_user_iff_static_token spec.sample_hs256
              spec.sample_static_tokens 0 "bob-secret") as [_ H].
  apply H. reflexivity.
Defined.

(** ** Credential store: overwrite, persistence, unusable file *)

Lemma upsert_user_writable_state u p st :
  user_store.writable st = true ->
  user_store.upsert_user u p st
  = (py.Ok tt,
     user_store.mkState
       (Some (<[u := p]> (user_store._load_users st).1))
       (Some (user_store.JsonObject (<[u := p]> (user_store._load_users st).1)))
       true).
Proof.
  intros Hw. unfold user_store.upsert_user, user_store._load_users.
  destruct (user_store._users_cache st); simpl;
    unfold user_store._save_users; simpl; by rewrite Hw.
Qed.



(** After an upsert that completed, the file holds exactly the users of the
    cache: a restart, which begins with an empty cache and reads the file,
    answers every [get_password] as before the restart. *)
Theorem upsert_user_persists (u p : string) (st : user_store.state) :
  (user_store.upsert_user u p st).1 = py.Ok tt ->
  let st' := (user_store.upsert_user u p st).2 in
  let restarted :=
    user_store.mkState None (user_store.USERS_FILE st') (user_store.writable st') in
  (exists users,
      user_store._users_cache st' = Some users
      /\ user_store.USERS_FILE st' = Some (user_store.JsonObject users))
  /\ (forall v, (user_store.get_password v restarted).1
                = (user_store.get_password v st').1).
Proof.
  intros Hok. cbv zeta.
  destruct (user_store.writable st) eqn:Hw.
  - rewrite (upsert_user_writable_state u p st Hw). cbn [snd].
    split; [eauto|]. intros v. reflexivity.
  - exfalso. revert Hok.
    unfold user_store.upsert_user, user_store._load_users.
    destruct (user_store._users_cache st); simpl;
      unfold user_store._save_users; simpl; rewrite Hw; discriminate.
Qed.

Lemma upsert_user_persists_witness :
  let st' := (user_store.upsert_user "dave" "pw-dave" spec.sample_users).2 in
  (user_store.get_password "dave"
     (user_store.mkState None (user_store.USERS_FILE st')
        (user_store.writable st'))).1
  = Some "pw-dave".
Proof.
  cbv zeta.
  destruct (upsert_user_persists "dave" "pw-dave" spec.sample_users eq_refl)
    as [_ Hrestart].
  rewrite Hrestart. reflexivity.
Defined.

(** With nothing cached and a users file that is missing or does not hold
    a JSON object, no user has a password; the first upsert on a writable
    store then replaces the file by one holding that single user. *)
Theorem unusable_users_file_is_empty
    (u p : string) (st : user_store.state) :
  user_store._users_cache st = None ->
  user_store.USERS_FILE st = None
  \/ user_store.USERS_FILE st = Some user_store.NotAnObject ->
  (forall v, (user_store.get_password v st).1 = None)
  /\ (user_store.writable st = true ->
      user_store.USERS_FILE (user_store.upsert_user u p st).2
      = Some (user_store.JsonObject {[ u := p ]})).
Proof.
  intros Hcache Hfile.
  assert (Hload : (user_store._load_users st).1 = ∅).
  { unfold user_store._load_users. rewrite Hcache.
    by destruct Hfile as [-> | ->]. }
  split.
  - intros v. rewrite get_password_load, Hload. apply lookup_empty.
  - intros Hw. rewrite (upsert_user_writable_state u p st Hw), Hload.
    cbn [snd user_store.USERS_FILE]. by rewrite insert_empty.
Qed.

Lemma unusable_users_file_witness :
  (user_store.get_password "carol"
     (user_store.mkState None (Some user_store.NotAnObject) true)).1 = None
  /\ user_store.USERS_FILE
       (user_store.upsert_user "dave" "pw"
          (user_store.mkState None (Some user_store.NotAnObject) true)).2
     = Some (user_store.JsonObject {[ "dave" := "pw" ]}).
Proof.
  destruct (unusable_users_file_is_empty "dave" "pw"
              (user_store.mkState None (Some user_store.NotAnObject) true)
              eq_refl (or_intror eq_refl)) as [Hnone Hfile].
  split; [apply Hnone|]. apply Hfile. reflexivity.
Defined.

(** When the file cannot be written the upsert raises, the file is left as
    it was, yet the cache already holds the new password: [get_password]
    answers with it until the process restarts. *)
Theorem upsert_user_failed_write_updates_cache
    (u p : string) (st : user_store.state) :
  user_store.writable st = false ->
  (user_store.upsert_user u p st).1 = py.Raise (py.EOther "OSError")
  /\ user_store.USERS_FILE (user_store.upsert_user u p st).2
     = user_store.USERS_FILE st
  /\ (user_store.get_password u (user_store.upsert_user u p st).2).1 = Some p.
Proof.
  intros Hw.
  assert (Hup : user_store.upsert_user u p st
                = (py.Raise (py.EOther "OSError"),
                   user_store.mkState
                     (Some (<[u := p]> (user_store._load_users st).1))
                     (user_store.USERS_FILE st) false)).
  { unfold user_store.upsert_user, user_store._load_users.
    destruct (user_store._users_cache st); simpl;
      unfold user_store._save_users; simpl; by rewrite Hw. }
  rewrite Hup. cbn [fst snd user_store.USERS_FILE].
  split; [done|]. split; [done|].
  rewrite get_password_load. cbn. apply lookup_insert_eq.
Qed.

Lemma upsert_user_failed_write_witness :
  let st := user_store.mkState None
              (Some (user_store.JsonObject {[ "carol" := "pw-carol" ]})) false in
  (user_store.upsert_user "carol" "new" st).1 = py.Raise (py.EOther "OSError")
  /\ (user_store.get_password "carol"
        (user_store.upsert_user "carol" "new" st).2).1 = Some "new".
Proof.
  cbv zeta.
  destruct (upsert_user_failed_write_updates_cache "carol" "new"
              (user_store.mkState None
                 (Some (user_store.JsonObject {[ "carol" := "pw-carol" ]})) false)
              eq_refl) as (Hraise & _ & Hget).
  split; [exact Hraise|exact Hget].
Defined.

(** ** The authentication endpoint *)

Lemma get_password_state_frame user st :
  user_store.USERS_FILE (user_store.get_password user st).2
  = user_store.USERS_FILE st
  /\ user_store.writable (user_store.get_password user st).2
     = user_store.writable st
  /\ (user_store._load_users (user_store.get_password user st).2).1
     = (user_store._load_users st).1.
Proof.
  unfold user_store.get_password, user_store._load_users.
  destruct (user_store._users_cache st) eqn:Hc; simpl; by rewrite ?Hc.
Qed.

(** Whatever is presented, [authenticate] leaves the stored credentials
    alone: the file is untouched and every [get_password] answers as
    before. *)
Theorem authenticate_keeps_credentials
    (hs256 : string -> gmap string models.claim -> string)
    (tokens : list (string * string)) (now : Z)
    (authMethod : config.AuthMethod) (token_cred username password : option string)
    (st : user_store.state) :
  let st' :=
    (api.authenticate hs256 tokens now authMethod token_cred username password
       st).2 in
  user_store.USERS_FILE st' = user_store.USERS_FILE st
  /\ (forall v, (user_store.get_password v st').1
                = (user_store.get_password v st).1).
Proof.
  cbv zeta.
  assert (Hsame : forall s : user_store.state,
    user_store.USERS_FILE s = user_store.USERS_FILE s
    /\ (forall v, (user_store.get_password v s).1 = (user_store.get_password v s).1))
    by done.
  unfold api.authenticate.
  destruct authMethod; try apply Hsame.
  - destruct username as [u|], password as [p|]; try apply Hsame.
    destruct (py.truthy u && py.truthy p); [|apply Hsame].
    unfold auth.authenticate_user_password.
    pose proof (get_password_state_frame u st) as (Hf & _ & Hl).
    destruct (user_store.get_password u st) as [[pw|] st1] eqn:Hg; simpl in *.
    + destruct (String.eqb pw p); simpl; (split; [done|]);
        intros v; by rewrite !get_password_load, Hl.
    + split; [done|]. intros v. by rewrite !get_password_load, Hl.
  - destruct token_cred as [c|]; [|apply Hsame].
    destruct (py.truthy c); apply Hsame.
Qed.



(** A user created through [create_user] can log in: with a non-empty name
    and password on a writable store, the username/password variant then
    succeeds with exactly that password, its token verifies to that user
    during the next 180 minutes, and any other password is refused. *)
Theorem create_user_then_authenticate
    (hs256 : string -> gmap string models.claim -> string)
    (tokens : list (string * string)) (now : Z)
    (u p : string) (token_cred : option string) (st : user_store.state) :
  py.truthy u = true ->
  py.truthy p = true ->
  user_store.writable st = true ->
  let st' := (api.create_user u p st).2 in
  (api.create_user u p st).1
  = py.Ok [("success", py.VBool true); ("username", py.VStr u)]
  /\ (exists access_token,
        (api.authenticate hs256 tokens now config.USERNAME_PASSWORD token_cred
           (Some u) (Some p) st').1
        = py.Ok (models.mkAuthResponse true (Some access_token)
                   (Some "Authentication successful"))
        /\ (forall now', now' < now + 180 * 60 * 1000000 ->
              auth.verify_token hs256 now' access_token
              = py.Ok (models.mkTokenData (Some u))))
  /\ (forall p', py.truthy p' = true -> p' <> p ->
        (api.authenticate hs256 tokens now config.USERNAME_PASSWORD token_cred
           (Some u) (Some p') st').1
        = py.Ok spec.invalid_username_or_password).
Proof.
  intros Hu Hp Hw. cbv zeta.
  unfold api.create_user. rewrite (upsert_user_writable_state u p st Hw).
  cbn [fst snd py.bind].
  set (st' := user_store.mkState _ _ _).
  assert (Hget : user_store.get_password u st' = (Some p, st')).
  { unfold user_store.get_password, user_store._load_users, st'. cbn.
    by rewrite lookup_insert_eq. }
  split; [done|]. split.
  - eexists. unfold api.authenticate. rewrite Hu, Hp. cbn [andb].
    unfold auth.authenticate_user_password. rewrite Hget, String.eqb_refl.
    cbn [fst]. split; [reflexivity|].
    intros now' Hlt. rewrite verify_create, expiry_configured_lifetime.
    assert (Hle : auth.timegm now' <= auth.timegm (now + 180 * 60 * 1000000))
      by (apply timegm_mono; lia).
    apply Z.ltb_ge in Hle. by rewrite Hle.
  - intros p' Hp' Hne. unfold api.authenticate. rewrite Hu, Hp'. cbn [andb].
    unfold auth.authenticate_user_password. rewrite Hget.
    assert (E : String.eqb p p' = false) by (apply String.eqb_neq; congruence).
    by rewrite E.
Qed.

Lemma create_user_then_authenticate_witness :
  (api.authenticate spec.sample_hs256 spec.sample_static_tokens 0
     config.USERNAME_PASSWORD None (Some "dave") (Some "guess")
     (api.create_user "dave" "pw-dave" spec.sample_users).2).1
  = py.Ok spec.invalid_username_or_password.
Proof.
  destruct (create_user_then_authenticate spec.sample_hs256
              spec.sample_static_tokens 0 "dave" "pw-dave" None
              spec.sample_users eq_refl eq_refl eq_refl) as (_ & _ & Hwrong).
  apply Hwrong; [reflexivity|discriminate].
Defined.

(** ** Response headers *)

Section header_count_facts.

Lemma header_count_cons k k' v' l :
  spec.header_count k ((k', v') :: l)
  = ((if String.eqb k' k then 1 else 0) + spec.header_count k l)%nat.
Proof.
  unfold spec.header_count. rewrite filter_cons. simpl.
  by destruct (String.eqb k' k).
Qed.

Lemma header_count_filter_same k (l : list (string * string)) :
  spec.header_count k (filter (fun kv => negb (String.eqb (fst kv) k)) l) = 0%nat.
Proof.
  induction l as [|[k' v'] l IH]; [done|].
  rewrite filter_cons. simpl.
  destruct (String.eqb k' k) eqn:E; simpl; [done|].
  by rewrite header_count_cons, E, IH.
Qed.

Lemma header_count_filter_other k k' (l : list (string * string)) :
  k <> k' ->
  spec.header_count k (filter (fun kv => negb (String.eqb (fst kv) k')) l)
  = spec.header_count k l.
Proof.
  intros Hne. induction l as [|[k0 v0] l IH]; [done|].
  rewrite filter_cons. simpl.
  destruct (String.eqb k0 k') eqn:E; simpl.
  - apply String.eqb_eq in E. subst k0. rewrite header_count_cons.
    assert (E' : String.eqb k' k = false) by (apply String.eqb_neq; congruence).
    by rewrite E', IH.
  - by rewrite !header_count_cons, IH.
Qed.

Lemma header_count_set_raw_same k v l :
  spec.header_count k (main.set_raw k v l) = 1%nat.
Proof.
  induction l as [|[k' v'] l IH]; simpl.
  - by rewrite header_count_cons, String.eqb_refl.
  - destruct (String.eqb k' k) eqn:E.
    + by rewrite header_count_cons, String.eqb_refl, header_count_filter_same.
    + by rewrite header_count_cons, E, IH.
Qed.

Lemma header_count_set_raw_other k k' v l :
  k <> k' ->
  spec.header_count k (main.set_raw k' v l) = spec.header_count k l.
Proof.
  intros Hne.
  assert (E' : String.eqb k' k = false) by (apply String.eqb_neq; congruence).
  induction l as [|[k0 v0] l IH]; simpl.
  - by rewrite header_count_cons, E'.
  - destruct (String.eqb k0 k') eqn:E.
    + apply String.eqb_eq in E. subst k0.
      by rewrite !header_count_cons, E', header_count_filter_other.
    + by rewrite !header_count_cons, IH.
Qed.

End header_count_facts.

(** [add_security_headers] overwrites: in the response it hands on, each
    hardening header occurs exactly once, whatever the route had set under
    that name; a header of any other name is left as the route made it. *)
Theorem add_security_headers_overwrites
    (request : security.Request)
    (call_next : security.Request -> py.result main.Response)
    (response : main.Response) :
  call_next request = py.Ok response ->
  exists response',
    main.add_security_headers request call_next = py.Ok response'
    /\ Forall (fun h => spec.header_count (py.lower (fst h))
                          (main.resp_headers response') = 1%nat)
              security.get_security_headers
    /\ (forall name,
          Forall (fun h => py.lower name <> py.lower (fst h))
                 security.get_security_headers ->
          main.get_header response' name = main.get_header response name
          /\ spec.header_count (py.lower name) (main.resp_headers response')
             = spec.header_count (py.lower name) (main.resp_headers response)).
Proof.
  intros Hnext. unfold main.add_security_headers. rewrite Hnext. simpl.
  eexists. split; [reflexivity|]. split.
  - repeat apply Forall_cons_2; [ .. | apply Forall_nil_2 ];
      cbn [fst snd main.set_header main.resp_headers];
      repeat first
        [ apply header_count_set_raw_same
        | rewrite header_count_set_raw_other by (vm_compute; discriminate) ].
  - intros name Hother. unfold security.get_security_headers in Hother.
    repeat match goal with
           | H : Forall _ (_ :: _) |- _ =>
               apply Forall_cons_1 in H; destruct H as [? H]
           end.
    cbn [fst] in *. split.
    + by rewrite !get_set_header_other.
    + cbn [main.set_header main.resp_headers].
      by rewrite !header_count_set_raw_other.
Qed.

(** A worked instance: the route had set X-Frame-Options twice and a cache
    header; afterwards X-Frame-Options is there once, with the fixed value,
    and the cache header is as it was. *)
Lemma add_security_headers_overwrites_witness :
  let response :=
    main.mkResponse 200 (main.Raw "ok")
      [ ("x-frame-options", "SAMEORIGIN"); ("cache-control", "no-store");
        ("x-frame-options", "ALLOWALL") ] in
  exists response',
    main.add_security_headers (security.mkRequest "GET" "/" [])
      (fun _ => py.Ok response) = py.Ok response'
    /\ spec.header_count "x-frame-options" (main.resp_headers response') = 1%nat
    /\ main.get_header response' "Cache-Control" = Some "no-store".
Proof.
  cbv zeta.
  destruct (add_security_headers_overwrites (security.mkRequest "GET" "/" [])
              (fun _ => py.Ok
                 (main.mkResponse 200 (main.Raw "ok")
                    [ ("x-frame-options", "SAMEORIGIN");
                      ("cache-control", "no-store");
                      ("x-frame-options", "ALLOWALL") ]))
              _ eq_refl) as (response' & Hadd & Hone & Hother).
  exists response'. split; [exact Hadd|]. split.
  - apply Forall_cons_1 in Hone as [_ Hone].
    apply Forall_cons_1 in Hone as [Hxfo _]. exact Hxfo.
  - destruct (Hother "Cache-Control") as [Hget _]; [|rewrite Hget; reflexivity].
    repeat apply Forall_cons_2; [ .. | apply Forall_nil_2 ];
      vm_compute; discriminate.
Defined.

(** ** What the gateway lets through *)

(** Every path that begins with /auth or /admin, whatever follows and
    whatever the method and headers, is handed on without any check: the
    administrative endpoints need no token.  So is every OPTIONS request. *)
Theorem middleware_skips_auth_and_admin_prefixes
    (tokens : list (string * string))
    (call_next : security.Request -> py.result main.Response)
    (method suffix : string) (headers : list (string * string)) :
  main.validate_request_security tokens
    (security.mkRequest method ("/admin" +:+ suffix) headers) call_next
  = call_next (security.mkRequest method ("/admin" +:+ suffix) headers)
  /\ main.validate_request_security tokens
       (security.mkRequest method ("/auth" +:+ suffix) headers) call_next
     = call_next (security.mkRequest method ("/auth" +:+ suffix) headers)
  /\ (forall path,
        main.validate_request_security tokens
          (security.mkRequest "OPTIONS" path headers) call_next
        = call_next (security.mkRequest "OPTIONS" path headers)).
Proof.
  assert (Hadmin : String.prefix "/admin" ("/admin" +:+ suffix) = true)
    by (by apply prefix_app_extend).
  assert (Hauth : String.prefix "/auth" ("/auth" +:+ suffix) = true)
    by (by apply prefix_app_extend).
  unfold main.validate_request_security.
  cbn [security.method security.url_path]. rewrite Hadmin, Hauth.
  split; [|split].
  - destruct (String.eqb method "OPTIONS"); [done|].
    by destruct (String.prefix "/auth" ("/admin" +:+ suffix)).
  - by destruct (String.eqb method "OPTIONS").
  - done.
Qed.

Lemma passes_gateway_hands_on tokens request call_next :
  spec.passes_gateway tokens request = true ->
  main.validate_request_security tokens request call_next = call_next request.
Proof.
  unfold spec.passes_gateway. intros H.
  destruct (spec.is_exempt request) eqn:Hex.
  - unfold main.validate_request_security.
    destruct (String.eqb (security.method request) "OPTIONS") eqn:E1; [done|].
    destruct (String.prefix "/auth" (security.url_path request)) eqn:E2; [done|].
    destruct (String.prefix "/admin" (security.url_path request)) eqn:E3; [done|].
    destruct (existsb (String.eqb (security.url_path request)) main.exempt_paths)
      eqn:E4; [done|].
    unfold spec.is_exempt in Hex. rewrite E1, E2, E3, E4 in Hex. discriminate Hex.
  - rewrite (middleware_not_exempt _ _ _ Hex). simpl in H.
    by destruct (security.validate_request_security tokens request) as [[]|e].
Qed.

(** On a request that is not exempt, the gateway only looks at the token
    header for presence and for not being a static secret: any other value,
    a forged or expired token included, is handed on when no oversize
    content length is declared. *)
Theorem gateway_does_not_verify_tokens
    (tokens : list (string * string)) (request : security.Request)
    (call_next : security.Request -> py.result main.Response) (tok : string) :
  security.headers_get "token" (security.headers request) = Some tok ->
  auth.is_static_token tokens tok = false ->
  security.headers_get "content-length" (security.headers request) = None ->
  main.validate_request_security tokens request call_next = call_next request.
Proof.
  intros Htok Hstatic Hcl. apply passes_gateway_hands_on.
  unfold spec.passes_gateway, security.validate_request_security,
    security._validate_rate_limit, security._validate_request_size.
  rewrite Htok, Hstatic, Hcl. simpl. apply orb_true_r.
Qed.

Lemma gateway_does_not_verify_tokens_witness :
  main.validate_request_security spec.sample_static_tokens
    (security.mkRequest "GET" "/dataSource" [("token", "not-a-jwt")])
    (fun _ => py.Ok spec.sample_response)
  = py.Ok spec.sample_response.
Proof.
  apply (gateway_does_not_verify_tokens spec.sample_static_tokens
           (security.mkRequest "GET" "/dataSource" [("token", "not-a-jwt")])
           (fun _ => py.Ok spec.sample_response) "not-a-jwt");
    reflexivity.
Defined.

(** ** How route errors are answered *)



(** When a request has passed the gateway and the route raises anything
    that is not an HTTPException, the client gets status 500, the text of
    the exception in the detail, and none of the hardening headers. *)
Theorem route_other_exception_is_500_without_headers
    (tokens : list (string * string))
    (router : security.Request -> py.result main.Response)
    (request : security.Request) (e : py.exn) :
  spec.passes_gateway tokens request = true ->
  router request = py.Raise e ->
  (forall h, e <> py.EHTTP h) ->
  let response := main.app tokens router request in
  main.status response = 500
  /\ main.content response
     = main.Json [("detail",
                   py.VStr ("Internal server error: " +:+ py.str_exn e))]
  /\ Forall (fun h => main.get_header response (fst h) = None)
            security.get_security_headers.
Proof.
  intros Hpass Hroute Hnot. cbv zeta.
  assert (Happ : main.app tokens router request
                 = main.general_exception_handler request e).
  { unfold main.app, main.server_error_middleware, main.add_security_headers.
    rewrite (passes_gateway_hands_on _ _ _ Hpass).
    unfold main.exception_middleware. rewrite Hroute.
    destruct e as [h| | |]; [by destruct (Hnot h)|done..]. }
  rewrite Happ. split; [done|]. split; [done|].
  repeat apply Forall_cons_2; [ .. | apply Forall_nil_2 ]; reflexivity.
Qed.

Lemma route_other_exception_witness :
  let response :=
    main.app spec.sample_static_tokens
      (fun _ => py.Raise database.unavailable)
      (security.mkRequest "POST" "/admin/clear" []) in
  main.status response = 500
  /\ main.get_header response "X-Frame-Options" = None.
Proof.
  cbv zeta.
  destruct (route_other_exception_is_500_without_headers
              spec.sample_static_tokens
              (fun _ => py.Raise database.unavailable)
              (security.mkRequest "POST" "/admin/clear" [])
              database.unavailable eq_refl eq_refl)
    as (Hst & _ & Hall); [discriminate|].
  split; [exact Hst|].
  apply Forall_cons_1 in Hall as [_ Hall].
  apply Forall_cons_1 in Hall as [Hxfo _]. exact Hxfo.
Defined.

(** ** Retrieval endpoint *)

(** [retrieve] never lets a raw exception out: it returns the contexts or
    raises an HTTPException with status 400 or 500.  When the index does not
    answer, a non-empty prompt gets the 500 whose detail names the cause. *)
Theorem retrieve_raises_only_400_or_500
    (distance : string -> string -> Z) (vs : database.VectorStoreManager)
    (request : models.RetrievalRequest) :
  match api.retrieve distance vs request with
  | py.Ok _ => True
  | py.Raise (py.EHTTP e) => py.status_code e = 400 \/ py.status_code e = 500
  | py.Raise _ => False
  end
  /\ (py.truthy_opt (models.latestUserPrompt request) = true ->
      database.available vs = false ->
      api.retrieve distance vs request
      = py.Raise (py.EHTTP (py.mkHTTPException 500
          "Retrieval process failed: vector store unavailable" None))).
Proof.
  unfold api.retrieve.
  destruct (models.latestUserPrompt request) as [[|c p]|] eqn:Hp;
    cbn [py.truthy_opt py.truthy negb].
  - split; [by left|discriminate].
  - unfold retrieval.process_retrieval_request.
    cbn [models.latestUserPrompt models.maxMatches].
    unfold database.similarity_search.
    destruct (database.available vs) eqn:Hav; cbn [py.bind].
    + split; [done|discriminate].
    + split; [by right|done].
  - split; [by left|discriminate].
Qed.

Lemma retrieve_unavailable_witness :
  api.retrieve spec.sample_distance (database.mkVectorStoreManager [] false)
    (models.mkRetrievalRequest (Some "question") 3)
  = py.Raise (py.EHTTP (py.mkHTTPException 500
      "Retrieval process failed: vector store unavailable" None)).
Proof.
  destruct (retrieve_raises_only_400_or_500 spec.sample_distance
              (database.mkVectorStoreManager [] false)
              (models.mkRetrievalRequest (Some "question") 3)) as [_ H].
  apply H; reflexivity.
Defined.

Section nearest_facts.

Variable distance : string -> string -> Z.

Lemma insert_by_In query d x l :
  In d (database.insert_by distance query x l) -> d = x \/ In d l.
Proof.
  induction l as [|y l IH]; simpl.
  - intros [<-|[]]. by left.
  - destruct (_ <=? _)%Z; simpl.
    + intros [<-|H]; [by left|by right].
    + intros [<-|H]; [right; by left|].
      destruct (IH H) as [->|Hin]; [by left|right; by right].
Qed.

Lemma nearest_first_In query d l :
  In d (database.nearest_first distance query l) -> In d l.
Proof.
  induction l as [|x l IH]; simpl; [done|].
  intros H. apply insert_by_In in H as [->|H]; [by left|right; by apply IH].
Qed.

Lemma similarity_search_In vs query k docs d :
  database.similarity_search distance vs query k = py.Ok docs ->
  In d docs -> In d (map snd (database.collection vs)).
Proof.
  unfold database.similarity_search.
  destruct (database.available vs); [|discriminate].
  intros [= <-] Hin. apply (nearest_first_In query).
  apply list_elem_of_In. apply list_elem_of_In in Hin.
  by apply (subseteq_take (Z.to_nat k)).
Qed.

End nearest_facts.

(** Every context that [process_retrieval_request] returns is the image of
    a stored document: the matched content is its text, copied as it is;
    the path is its source entry and the name is that entry or Unknown when
    the document has none; the category is Research Paper, the type TEXT,
    surrounding content and links are empty. *)
Theorem process_retrieval_request_contexts
    (distance : string -> string -> Z) (vs : database.VectorStoreManager)
    (request : models.RetrievalRequest) (contexts : list models.Context) :
  retrieval.process_retrieval_request distance vs request = py.Ok contexts ->
  Forall (fun c =>
            models.category c = Some "Research Paper"
            /\ models.type c = config.TEXT
            /\ models.surroundingContent c = []
            /\ models.links c = []
            /\ exists doc,
                 In doc (map snd (database.collection vs))
                 /\ models.matchedContent c = Some (database.page_content doc)
                 /\ models.path c = database.metadata doc !! "source"
                 /\ models.name c
                    = Some (default "Unknown" (database.metadata doc !! "source")))
         contexts.
Proof.
  unfold retrieval.process_retrieval_request.
  destruct (models.latestUserPrompt request) as [prompt|]; [|discriminate].
  destruct (database.similarity_search distance vs prompt _) as [docs|e] eqn:Hs;
    simpl; [|discriminate].
  intros [= <-]. apply Forall_forall. intros c Hc.
  apply list_elem_of_In, in_map_iff in Hc as (doc & <- & Hdoc).
  repeat split; try done.
  exists doc. split; [|done].
  eapply similarity_search_In; eauto.
Qed.

Lemma process_retrieval_request_contexts_witness :
  Forall (fun c => models.category c = Some "Research Paper")
    (match retrieval.process_retrieval_request spec.sample_distance
             spec.sample_store (models.mkRetrievalRequest (Some "first") 3) with
     | py.Ok contexts => contexts
     | py.Raise _ => []
     end).
Proof.
  pose proof (process_retrieval_request_contexts spec.sample_distance
                spec.sample_store (models.mkRetrievalRequest (Some "first") 3)
                _ eq_refl) as H.
  eapply Forall_impl; [exact H|]. intros c Hc. apply Hc.
Defined.
